(** * xmtp-react-native: conversation streaming, consent and field selection

    A shallow embedding of the conversation / group synchronisation layer:

    - [src/lib/Conversations.ts] (class [Conversations]): the list calls, the
      event streams with their uses of [this.known] and of the [subscriptions]
      registry, and
      the cancel functions;
    - [src/lib/Group.ts] (class [Group]): sending with a JS codec, the
      per-group message stream, and the consent calls;
    - [example/src/HomeScreen.tsx]: the [denyGroup] handler, a caller of the
      consent calls;
    - [GroupWrapper.kt]: the native encoder with its field-selection options.

    The native module ([XMTPModule], imported as [XMTP] in [Group.ts]) and its
    event emitter are not among these files.  The native functions are an
    interface ([XMTPModule.t]) over an abstract remote state, every call to
    them is appended to a log, and the emitter is a list of registered
    listeners in registration order. *)

From stdpp Require Import gmap strings list fin_maps pretty.

Open Scope string_scope.
Open Scope list_scope.

(** ** Identities and enumerations *)

Abbreviation InboxId := string (only parsing).
Abbreviation InstallationId := string (only parsing).
Abbreviation ConversationId := string (only parsing).
Abbreviation ConversationTopic := string (only parsing).
Abbreviation MessageId := string (only parsing).

(** [ConsentState] of [./ConsentRecord]: ['allowed' | 'denied' | 'unknown']. *)
Inductive ConsentState := allowed | denied | unknown.

(** [ConversationVersion] of [./Conversation].  The code compares against
    [GROUP] and [DM] only; [Other] is any member of the enumeration that is
    neither. *)
Module ConversationVersion.
Inductive t :=
| GROUP
| DM
| Other.

#[global] Instance eq_dec : EqDecision t.
Proof. solve_decision. Defined.
End ConversationVersion.

(** The members of [EventTypes] that the two classes register listeners for.
    The registry [subscriptions] is keyed by them. *)
Module EventTypes.
Inductive t :=
| Conversation
| Group
| ConversationV3
| ConversationContainer
| Message
| AllGroupMessage
| AllConversationMessages
| ConversationMessage.

#[global] Instance eq_dec : EqDecision t.
Proof. solve_decision. Defined.

Definition code (e : t) : nat :=
  match e with
  | Conversation => 0
  | Group => 1
  | ConversationV3 => 2
  | ConversationContainer => 3
  | Message => 4
  | AllGroupMessage => 5
  | AllConversationMessages => 6
  | ConversationMessage => 7
  end.

Definition of_code (n : nat) : option t :=
  match n with
  | 0 => Some Conversation
  | 1 => Some Group
  | 2 => Some ConversationV3
  | 3 => Some ConversationContainer
  | 4 => Some Message
  | 5 => Some AllGroupMessage
  | 6 => Some AllConversationMessages
  | 7 => Some ConversationMessage
  | _ => None
  end.

#[global] Instance countable : Countable t.
Proof.
  apply (inj_countable code of_code).
  intros []; reflexivity.
Defined.
End EventTypes.

#[global] Instance ConsentState_eq_dec : EqDecision ConsentState.
Proof. solve_decision. Defined.

(** ** Payloads carried by events and returned by the native module *)

(** [DecodedMessage]: the listeners read [message.id] only. *)
Record DecodedMessage := {
  msg_id : MessageId;
  msg_topic : ConversationTopic;
  msg_fallback : string;
}.

(** [GroupParams] of [Group.ts]. *)
Record GroupParams := {
  gp_id : ConversationId;
  gp_createdAt : Z;
  gp_topic : ConversationTopic;
  gp_name : string;
  gp_isActive : bool;
  gp_addedByInboxId : InboxId;
  gp_imageUrlSquare : string;
  gp_description : string;
  gp_consentState : ConsentState;
  gp_lastMessage : option DecodedMessage;
}.

(** [ConversationParams]: the listener of [stream] reads [conversation.topic]. *)
Record ConversationParams := {
  cp_topic : ConversationTopic;
  cp_createdAt : Z;
}.

(** [ConversationContainer]: the listeners read [topic] and [version]. *)
Record ConversationContainerParams := {
  cc_id : ConversationId;
  cc_topic : ConversationTopic;
  cc_version : ConversationVersion.t;
}.

(** What a listener hands to the application callback: the class whose
    constructor (or [fromObject]) is applied, and the raw object it is
    applied to.  The casts [as unknown as GroupParams] and the like do not
    change the object, so the raw object is kept as received.  The classes
    are the ones the file imports: [Group], [Dm] and [DecodedMessage];
    [Conversation] is not imported, so no object of it is ever built. *)
Inductive RawObject :=
| RawGroupParams (group : GroupParams)
| RawContainer (container : ConversationContainerParams)
| RawMessage (message : DecodedMessage).

Inductive EntityClass := NewGroup | NewDm | MessageFromObject.

Record Entity := { entity_class : EntityClass; entity_raw : RawObject }.

(** An event as the emitter delivers it: the event type fixes the shape of
    the object the listener destructures. *)
Inductive Event :=
| Ev_Conversation (inboxId : InboxId) (conversation : ConversationParams)
| Ev_Group (inboxId : InboxId) (group : GroupParams)
| Ev_ConversationV3 (inboxId : InboxId) (conversation : ConversationContainerParams)
| Ev_ConversationContainer (inboxId : InboxId)
    (conversationContainer : ConversationContainerParams)
| Ev_Message (inboxId : InboxId) (message : DecodedMessage)
| Ev_AllGroupMessage (inboxId : InboxId) (message : DecodedMessage)
| Ev_AllConversationMessages (inboxId : InboxId) (message : DecodedMessage)
| Ev_ConversationMessage (installationId : InstallationId)
    (message : DecodedMessage) (conversationId : ConversationId).

Definition event_type (ev : Event) : EventTypes.t :=
  match ev with
  | Ev_Conversation _ _ => EventTypes.Conversation
  | Ev_Group _ _ => EventTypes.Group
  | Ev_ConversationV3 _ _ => EventTypes.ConversationV3
  | Ev_ConversationContainer _ _ => EventTypes.ConversationContainer
  | Ev_Message _ _ => EventTypes.Message
  | Ev_AllGroupMessage _ _ => EventTypes.AllGroupMessage
  | Ev_AllConversationMessages _ _ => EventTypes.AllConversationMessages
  | Ev_ConversationMessage _ _ _ => EventTypes.ConversationMessage
  end.

(** The client identity an event is addressed to. *)
Definition event_identity (ev : Event) : string :=
  match ev with
  | Ev_Conversation i _ | Ev_Group i _ | Ev_ConversationV3 i _
  | Ev_ConversationContainer i _ | Ev_Message i _ | Ev_AllGroupMessage i _
  | Ev_AllConversationMessages i _ => i
  | Ev_ConversationMessage i _ _ => i
  end.

(** ** Sending: content, content types, codecs, errors *)

Inductive MessageContent :=
| text_content (text : string)
| other_content (json : string).

(** [ConversationSendPayload]: a plain string or a structured content. *)
Inductive SendPayload :=
| payload_string (s : string)
| payload_content (c : MessageContent).

Record ContentTypeId := {
  authorityId : string;
  typeId : string;
  versionMajor : N;
  versionMinor : N;
}.

Record Codec := { codec_name : string }.

(** Errors thrown by the code or coming back from a native call. *)
Inductive Error :=
| CodecMissing (contentType : ContentTypeId)
    (* new Error(`no codec found for: ${contentType}`) *)
| NativeError (message : string)
| CallbackError (message : string)
| TypeError (message : string)
    (* thrown by the engine: a property of [undefined] is read or set *)
| ReferenceError (message : string).
    (* thrown by the engine: an identifier that is bound nowhere is read *)

(** The two engine errors the code of [Conversations] runs into.  The text
    of their message depends on the engine; nothing below reads it. *)
Definition this_known_is_undefined : Error := TypeError "this.known is undefined".

Definition Conversation_is_not_defined : Error :=
  ReferenceError "Conversation is not defined".

Inductive Result (A : Type) :=
| Ok (a : A)
| Throw (e : Error).
Arguments Ok {A} a.
Arguments Throw {A} e.

(** Arguments of the list calls, forwarded unchanged to the native module. *)
Record ListQuery := {
  q_opts : option string;
  q_order : option string;
  q_limit : option N;
}.

(** ** The native module *)

(** Every call into the native module, with its arguments. *)
Inductive GatewayCall :=
| call_listGroups (inboxId : InboxId) (q : ListQuery)
| call_listAll (inboxId : InboxId)
| call_listV3Conversations (inboxId : InboxId) (q : ListQuery)
| call_subscribeToGroups (inboxId : InboxId)
| call_subscribeToV3Conversations (inboxId : InboxId)
| call_subscribeToConversations (inboxId : InboxId)
| call_subscribeToAll (inboxId : InboxId)
| call_subscribeToAllMessages (inboxId : InboxId) (includeGroups : bool)
| call_subscribeToAllGroupMessages (inboxId : InboxId)
| call_subscribeToAllConversationMessages (inboxId : InboxId)
| call_unsubscribeFromGroups (inboxId : InboxId)
| call_unsubscribeFromV3Conversations (inboxId : InboxId)
| call_unsubscribeFromConversations (inboxId : InboxId)
| call_unsubscribeFromAllMessages (inboxId : InboxId)
| call_unsubscribeFromAllGroupMessages (inboxId : InboxId)
| call_unsubscribeFromAllConversationMessages (inboxId : InboxId)
| call_sendMessage (inst : InstallationId) (id : ConversationId) (c : MessageContent)
| call_sendWithContentType (inst : InstallationId) (id : ConversationId)
    (content : SendPayload) (codec : Codec)
| call_prepareMessage (inst : InstallationId) (id : ConversationId) (c : MessageContent)
| call_prepareMessageWithContentType (inst : InstallationId) (id : ConversationId)
    (content : SendPayload) (codec : Codec)
| call_subscribeToMessages (inst : InstallationId) (id : ConversationId)
| call_unsubscribeFromMessages (inst : InstallationId) (id : ConversationId)
| call_conversationConsentState (inst : InstallationId) (id : ConversationId)
| call_updateConversationConsent (inst : InstallationId) (id : ConversationId)
    (state : ConsentState).

Definition is_unsubscribe (c : GatewayCall) : bool :=
  match c with
  | call_unsubscribeFromGroups _ | call_unsubscribeFromV3Conversations _
  | call_unsubscribeFromConversations _ | call_unsubscribeFromAllMessages _
  | call_unsubscribeFromAllGroupMessages _
  | call_unsubscribeFromAllConversationMessages _
  | call_unsubscribeFromMessages _ _ => true
  | _ => false
  end.

Definition is_consent_fetch (c : GatewayCall) : bool :=
  match c with
  | call_conversationConsentState _ _ => true
  | _ => false
  end.

(** Modelled from the spec: the native module ([../index]) is not among the
    files; it is the Gateway of the spec, "an opaque async interface the core
    calls to fetch/mutate remote state".  It is an interface here: the
    native functions whose result is awaited, over an abstract remote state,
    and the effect [notify] of the calls whose result is dropped. *)
Module XMTPModule.
Record t (Remote : Type) := {
  listGroups : InboxId -> ListQuery -> Remote -> Result (list GroupParams) * Remote;
  listAll : InboxId -> Remote -> Result (list ConversationContainerParams) * Remote;
  listV3Conversations :
    InboxId -> ListQuery -> Remote -> Result (list ConversationContainerParams) * Remote;
  sendMessage :
    InstallationId -> ConversationId -> MessageContent -> Remote -> Result MessageId * Remote;
  sendWithContentType :
    InstallationId -> ConversationId -> SendPayload -> Codec -> Remote ->
    Result MessageId * Remote;
  prepareMessage :
    InstallationId -> ConversationId -> MessageContent -> Remote -> Result MessageId * Remote;
  prepareMessageWithContentType :
    InstallationId -> ConversationId -> SendPayload -> Codec -> Remote ->
    Result MessageId * Remote;
  subscribeToMessages :
    InstallationId -> ConversationId -> Remote -> Result unit * Remote;
  unsubscribeFromMessages :
    InstallationId -> ConversationId -> Remote -> Result unit * Remote;
  conversationConsentState :
    InstallationId -> ConversationId -> Remote -> Result ConsentState * Remote;
  updateConversationConsent :
    InstallationId -> ConversationId -> ConsentState -> Remote -> Result unit * Remote;
  notify : GatewayCall -> Remote -> Remote;
}.
Arguments listGroups {Remote} _ _ _ _.
Arguments listAll {Remote} _ _ _.
Arguments listV3Conversations {Remote} _ _ _ _.
Arguments sendMessage {Remote} _ _ _ _ _.
Arguments sendWithContentType {Remote} _ _ _ _ _ _.
Arguments prepareMessage {Remote} _ _ _ _ _.
Arguments prepareMessageWithContentType {Remote} _ _ _ _ _ _.
Arguments subscribeToMessages {Remote} _ _ _ _.
Arguments unsubscribeFromMessages {Remote} _ _ _ _.
Arguments conversationConsentState {Remote} _ _ _ _.
Arguments updateConversationConsent {Remote} _ _ _ _ _.
Arguments notify {Remote} _ _ _.
End XMTPModule.

(** ** Objects and the process state *)

(** An application callback: it resolves ([None]) or rejects ([Some e]).
    It is application code, outside these files; it is taken as a function of
    its argument that does not call back into the objects modelled here. *)
Definition Callback := Entity -> option Error.

(** The function passed to [emitter.addListener], one per stream method,
    with what the closure captures besides [this]. *)
Inductive ListenerBody :=
| streamGroups_listener (callback : Callback)
| streamConversations_listener (callback : Callback)
| stream_listener (callback : Callback)
| streamAll_listener (callback : Callback)
| streamAllMessages_listener (callback : Callback)
| streamAllGroupMessages_listener (callback : Callback)
| streamAllConversationMessages_listener (callback : Callback)
| streamMessages_listener (clientInstallationId : InstallationId)
    (id : ConversationId) (callback : Callback).

(** The event type each of them is registered for. *)
Definition listener_event (b : ListenerBody) : EventTypes.t :=
  match b with
  | streamGroups_listener _ => EventTypes.Group
  | streamConversations_listener _ => EventTypes.ConversationV3
  | stream_listener _ => EventTypes.Conversation
  | streamAll_listener _ => EventTypes.ConversationContainer
  | streamAllMessages_listener _ => EventTypes.Message
  | streamAllGroupMessages_listener _ => EventTypes.AllGroupMessage
  | streamAllConversationMessages_listener _ => EventTypes.AllConversationMessages
  | streamMessages_listener _ _ _ => EventTypes.ConversationMessage
  end.

(** A registered listener; [handle] is the subscription object returned by
    [addListener], whose [remove()] unregisters this listener. *)
Record Listener := { handle : nat; body : ListenerBody }.

(** The value of a property that no declaration and no assignment gives a
    value to. *)
Inductive JsUndefined := undefined.

(** The fields of a [Conversations] object.  The class body declares
    [client] and [subscriptions], and the constructor sets [client].  The
    methods also use [this.known], which the class does not declare and no
    statement of the file assigns: on every object it is [undefined], so
    reading [this.known[k]] and writing [this.known[k] = true] throw a
    [TypeError]. *)
Record Conversations_t := {
  client_inboxId : InboxId;
  known : JsUndefined;
  subscriptions : gmap EventTypes.t nat;
}.

Definition with_subscriptions (s : gmap EventTypes.t nat) (c : Conversations_t)
  : Conversations_t :=
  {| client_inboxId := client_inboxId c; known := known c; subscriptions := s |}.

Section Process.

Context {Remote : Type}.

Record World := {
  conversations : Conversations_t;        (* the [Conversations] object *)
  codecRegistry : gmap string Codec;      (* [Client.codecRegistry] *)
  emitter : list Listener;                (* listeners, in registration order *)
  next_handle : nat;
  calls : list GatewayCall;               (* native calls made so far *)
  remote : Remote;
  invoked : list (nat * Entity);          (* callback invocations: listener, argument *)
  unhandled : list (nat * Error);         (* rejected listener promises *)
  console : list string;                  (* console.info output *)
}.

Definition set_conversations (c : Conversations_t) (w : World) : World :=
  {| conversations := c; codecRegistry := codecRegistry w; emitter := emitter w;
     next_handle := next_handle w; calls := calls w; remote := remote w;
     invoked := invoked w; unhandled := unhandled w; console := console w |}.

Definition set_emitter (l : list Listener) (n : nat) (w : World) : World :=
  {| conversations := conversations w; codecRegistry := codecRegistry w; emitter := l;
     next_handle := n; calls := calls w; remote := remote w;
     invoked := invoked w; unhandled := unhandled w; console := console w |}.

Definition set_remote (c : GatewayCall) (r : Remote) (w : World) : World :=
  {| conversations := conversations w; codecRegistry := codecRegistry w;
     emitter := emitter w; next_handle := next_handle w;
     calls := calls w ++ [c]; remote := r;
     invoked := invoked w; unhandled := unhandled w; console := console w |}.

Definition add_invoked (h : nat) (x : Entity) (w : World) : World :=
  {| conversations := conversations w; codecRegistry := codecRegistry w;
     emitter := emitter w; next_handle := next_handle w;
     calls := calls w; remote := remote w;
     invoked := invoked w ++ [(h, x)]; unhandled := unhandled w; console := console w |}.

Definition add_unhandled (h : nat) (e : Error) (w : World) : World :=
  {| conversations := conversations w; codecRegistry := codecRegistry w;
     emitter := emitter w; next_handle := next_handle w;
     calls := calls w; remote := remote w;
     invoked := invoked w; unhandled := unhandled w ++ [(h, e)]; console := console w |}.

Definition add_console (s : string) (w : World) : World :=
  {| conversations := conversations w; codecRegistry := codecRegistry w;
     emitter := emitter w; next_handle := next_handle w;
     calls := calls w; remote := remote w;
     invoked := invoked w; unhandled := unhandled w; console := console w ++ [s] |}.

(** ** A state and exception monad for the methods *)

Definition M (A : Type) : Type := World -> Result A * World.

Definition ret {A} (a : A) : M A := fun w => (Ok a, w).

Definition throw {A} (e : Error) : M A := fun w => (Throw e, w).

Definition bind {A B} (m : M A) (k : A -> M B) : M B :=
  fun w =>
    match m w with
    | (Ok a, w') => k a w'
    | (Throw e, w') => (Throw e, w')
    end.

(** [try { m } catch (e) { h e }] *)
Definition try_catch {A} (m : M A) (h : Error -> M A) : M A :=
  fun w =>
    match m w with
    | (Ok a, w') => (Ok a, w')
    | (Throw e, w') => h e w'
    end.

End Process.

Arguments World : clear implicits.
Arguments M : clear implicits.

Notation "'let*' x := m 'in' k" := (bind m (fun x => k))
  (at level 10, x name, m at level 100, k at level 200, only parsing).
Notation "m ;; k" := (bind m (fun _ => k))
  (at level 100, k at level 200, right associativity, only parsing).

(** ** Primitives shared by the two classes *)

Section Primitives.

Context {Remote : Type}.
Variable XMTP : XMTPModule.t Remote.

(** A native call whose promise is awaited: its result comes from the
    native module. *)
Definition await_native {A} (c : GatewayCall)
    (f : Remote -> Result A * Remote) : M Remote A :=
  fun w => let '(r, rem) := f (remote w) in (r, set_remote c rem w).

(** A native call whose promise is dropped (no [await], no [.catch]): the
    caller goes on whatever the native side answers. *)
Definition post_native (c : GatewayCall) : M Remote unit :=
  fun w => (Ok tt, set_remote c (XMTPModule.notify XMTP c (remote w)) w).

(** Modelled from the spec: the emitter ([XMTPModule.emitter]) is not among
    the files; "registers a local listener" and "removes the local listener"
    are registration in, and removal from, the list of listeners.
    [XMTPModule.emitter.addListener(eventType, fn)]: the event type is the
    one of the listener body; returns the subscription handle. *)
Definition addListener (b : ListenerBody) : M Remote nat :=
  fun w =>
    let h := next_handle w in
    (Ok h, set_emitter (emitter w ++ [{| handle := h; body := b |}]) (S h) w).

(** [subscription.remove()] *)
Definition remove (h : nat) : M Remote unit :=
  fun w =>
    (Ok tt,
     set_emitter (filter (fun l => handle l <> h) (emitter w)) (next_handle w) w).

(** [await callback(x)] inside the listener with handle [h]: the call is
    recorded; a rejection of the callback is thrown at the [await]. *)
Definition await_callback (h : nat) (callback : Callback) (x : Entity) : M Remote unit :=
  fun w =>
    match callback x with
    | None => (Ok tt, add_invoked h x w)
    | Some e => (Throw e, add_invoked h x w)
    end.

Definition console_info (s : string) : M Remote unit :=
  fun w => (Ok tt, add_console s w).

Definition get_this : M Remote Conversations_t :=
  fun w => (Ok (conversations w), w).

(** [this.known[k]], read: [this.known] is [undefined], the read throws. *)
Definition read_known (k : string) : M Remote bool :=
  throw this_known_is_undefined.

(** [this.known[k] = true]: [this.known] is [undefined], the write throws. *)
Definition set_known (k : string) : M Remote unit :=
  throw this_known_is_undefined.

(** [new Conversation(...)]: the identifier [Conversation] is bound by no
    import or declaration of the file; reading it throws before anything is
    built. *)
Definition new_Conversation : M Remote Entity :=
  throw Conversation_is_not_defined.

(** [this.subscriptions[key] = subscription] *)
Definition set_subscription (key : EventTypes.t) (h : nat) : M Remote unit :=
  fun w =>
    let c := conversations w in
    (Ok tt, set_conversations (with_subscriptions (<[key := h]> (subscriptions c)) c) w).

(** [delete this.subscriptions[key]] *)
Definition delete_subscription (key : EventTypes.t) : M Remote unit :=
  fun w =>
    let c := conversations w in
    (Ok tt, set_conversations (with_subscriptions (delete key (subscriptions c)) c) w).

(** [for (const x of xs) { f x }] *)
Fixpoint for_of {A} (xs : list A) (f : A -> M Remote unit) : M Remote unit :=
  match xs with
  | [] => ret tt
  | x :: rest => f x ;; for_of rest f
  end.

End Primitives.

(** The cancel functions that stream methods return, as the closures they
    are: each captures the subscription handle (and, for a group, the
    identities the unsubscribe call is made with). *)
Inductive CancelFunction :=
| streamGroups_cancel (groupsSubscription : nat)
| streamConversations_cancel (subscription : nat)
| streamAll_cancel (subscription : nat)
| streamMessages_cancel (messageSubscription : nat)
    (clientInstallationId : InstallationId) (id : ConversationId).

(** ** [Conversations] *)

Module Conversations.
Section Methods.

Context {Remote : Type}.
Variable XMTP : XMTPModule.t Remote.

Definition listGroups (q : ListQuery) : M Remote (list GroupParams) :=
  let* this := get_this in
  let* result :=
    await_native (call_listGroups (client_inboxId this) q)
      (XMTPModule.listGroups XMTP (client_inboxId this) q) in
  for_of result (fun group => set_known (gp_id group)) ;;
  ret result.

Definition listAll : M Remote (list ConversationContainerParams) :=
  let* this := get_this in
  let* result :=
    await_native (call_listAll (client_inboxId this))
      (XMTPModule.listAll XMTP (client_inboxId this)) in
  for_of result (fun conversationContainer => set_known (cc_topic conversationContainer)) ;;
  ret result.

Definition listConversations (q : ListQuery) : M Remote (list ConversationContainerParams) :=
  let* this := get_this in
  await_native (call_listV3Conversations (client_inboxId this) q)
    (XMTPModule.listV3Conversations XMTP (client_inboxId this) q).

(** *** The listeners *)

(** Listener of [streamGroups]: no test of [known]; the write to [known]
    comes before the callback. *)
Definition streamGroups_on (h : nat) (callback : Callback)
    (inboxId : InboxId) (group : GroupParams) : M Remote unit :=
  let* this := get_this in
  if bool_decide (client_inboxId this <> inboxId) then ret tt
  else
    set_known (gp_id group) ;;
    await_callback h callback
      {| entity_class := NewGroup; entity_raw := RawGroupParams group |}.

(** Listener of [streamConversations]: no test of [known] either, and the
    write to [known] comes first; a version that is neither [GROUP] nor [DM]
    has no callback to reach. *)
Definition streamConversations_on (h : nat) (callback : Callback)
    (inboxId : InboxId) (conversation : ConversationContainerParams) : M Remote unit :=
  let* this := get_this in
  if bool_decide (inboxId <> client_inboxId this) then ret tt
  else
    set_known (cc_topic conversation) ;;
    if bool_decide (cc_version conversation = ConversationVersion.GROUP) then
      await_callback h callback
        {| entity_class := NewGroup; entity_raw := RawContainer conversation |}
    else if bool_decide (cc_version conversation = ConversationVersion.DM) then
      await_callback h callback
        {| entity_class := NewDm; entity_raw := RawContainer conversation |}
    else ret tt.

Definition stream_on (h : nat) (callback : Callback)
    (inboxId : InboxId) (conversation : ConversationParams) : M Remote unit :=
  let* this := get_this in
  if bool_decide (inboxId <> client_inboxId this) then ret tt
  else
    let* seen := read_known (cp_topic conversation) in
    if seen then ret tt
    else
      set_known (cp_topic conversation) ;;
      let* x := new_Conversation in
      await_callback h callback x.

Definition streamAll_on (h : nat) (callback : Callback)
    (inboxId : InboxId) (conversationContainer : ConversationContainerParams)
  : M Remote unit :=
  let* this := get_this in
  if bool_decide (inboxId <> client_inboxId this) then ret tt
  else
    let* seen := read_known (cc_topic conversationContainer) in
    if seen then ret tt
    else
      set_known (cc_topic conversationContainer) ;;
      if bool_decide (cc_version conversationContainer = ConversationVersion.GROUP) then
        await_callback h callback
          {| entity_class := NewGroup; entity_raw := RawContainer conversationContainer |}
      else
        let* x := new_Conversation in
        await_callback h callback x.

(** The listeners of [streamAllMessages], [streamAllGroupMessages] and
    [streamAllConversationMessages] have the same text. *)
Definition message_on (h : nat) (callback : Callback)
    (inboxId : InboxId) (message : DecodedMessage) : M Remote unit :=
  let* this := get_this in
  if bool_decide (inboxId <> client_inboxId this) then ret tt
  else
    let* seen := read_known (msg_id message) in
    if seen then ret tt
    else
      set_known (msg_id message) ;;
      await_callback h callback
        {| entity_class := MessageFromObject; entity_raw := RawMessage message |}.

(** *** Starting streams *)

Definition streamGroups (callback : Callback) : M Remote CancelFunction :=
  let* this := get_this in
  post_native XMTP (call_subscribeToGroups (client_inboxId this)) ;;
  let* groupsSubscription := addListener (streamGroups_listener callback) in
  set_subscription EventTypes.Group groupsSubscription ;;
  ret (streamGroups_cancel groupsSubscription).

Definition streamConversations (callback : Callback) : M Remote CancelFunction :=
  let* this := get_this in
  post_native XMTP (call_subscribeToV3Conversations (client_inboxId this)) ;;
  let* subscription := addListener (streamConversations_listener callback) in
  ret (streamConversations_cancel subscription).

Definition stream (callback : Callback) : M Remote unit :=
  let* this := get_this in
  post_native XMTP (call_subscribeToConversations (client_inboxId this)) ;;
  let* subscription := addListener (stream_listener callback) in
  set_subscription EventTypes.Conversation subscription.

Definition streamAll (callback : Callback) : M Remote CancelFunction :=
  let* this := get_this in
  post_native XMTP (call_subscribeToAll (client_inboxId this)) ;;
  let* subscription := addListener (streamAll_listener callback) in
  ret (streamAll_cancel subscription).

(** [includeGroups: boolean = false]: [None] is the omitted argument. *)
Definition streamAllMessages (callback : Callback) (includeGroups : option bool)
  : M Remote unit :=
  let includeGroups := default false includeGroups in
  let* this := get_this in
  post_native XMTP (call_subscribeToAllMessages (client_inboxId this) includeGroups) ;;
  let* subscription := addListener (streamAllMessages_listener callback) in
  set_subscription EventTypes.Message subscription.

Definition streamAllGroupMessages (callback : Callback) : M Remote unit :=
  let* this := get_this in
  post_native XMTP (call_subscribeToAllGroupMessages (client_inboxId this)) ;;
  let* subscription := addListener (streamAllGroupMessages_listener callback) in
  set_subscription EventTypes.AllGroupMessage subscription.

Definition streamAllConversationMessages (callback : Callback) : M Remote unit :=
  let* this := get_this in
  post_native XMTP (call_subscribeToAllConversationMessages (client_inboxId this)) ;;
  let* subscription := addListener (streamAllConversationMessages_listener callback) in
  set_subscription EventTypes.AllConversationMessages subscription.

(** *** Cancelling *)

(** The six cancel methods share one shape: remove and forget the registered
    subscription if there is one, then call the native unsubscribe, which is
    outside the [if]. *)
Definition cancel_subscription (key : EventTypes.t)
    (unsubscribe : InboxId -> GatewayCall) : M Remote unit :=
  let* this := get_this in
  match subscriptions this !! key with
  | Some subscription => remove subscription ;; delete_subscription key
  | None => ret tt
  end ;;
  post_native XMTP (unsubscribe (client_inboxId this)).

Definition cancelStream : M Remote unit :=
  cancel_subscription EventTypes.Conversation call_unsubscribeFromConversations.

Definition cancelStreamGroups : M Remote unit :=
  cancel_subscription EventTypes.Group call_unsubscribeFromGroups.

Definition cancelStreamConversations : M Remote unit :=
  cancel_subscription EventTypes.ConversationV3 call_unsubscribeFromV3Conversations.

Definition cancelStreamAllMessages : M Remote unit :=
  cancel_subscription EventTypes.Message call_unsubscribeFromAllMessages.

Definition cancelStreamAllGroupMessages : M Remote unit :=
  cancel_subscription EventTypes.AllGroupMessage call_unsubscribeFromAllGroupMessages.

Definition cancelStreamAllConversations : M Remote unit :=
  cancel_subscription EventTypes.AllConversationMessages
    call_unsubscribeFromAllConversationMessages.

End Methods.
End Conversations.

(** ** [Group] *)

Record SendOptions := { contentType : option ContentTypeId }.

(** [e.message] *)
Definition error_message (e : Error) : string :=
  match e with
  | CodecMissing _ => "no codec found for: [object Object]"
  | NativeError m => m
  | CallbackError m => m
  | TypeError m => m
  | ReferenceError m => m
  end.

(** The key of a content type in [Client.codecRegistry]:
    [`${authorityId}/${typeId}:${versionMajor}.${versionMinor}`]. *)
Definition codec_key (c : ContentTypeId) : string :=
  authorityId c +:+ "/" +:+ typeId c +:+ ":" +:+
  pretty (versionMajor c) +:+ "." +:+ pretty (versionMinor c).

Module Group.

Record t := {
  clientInstallationId : InstallationId;
  id : ConversationId;
  createdAt : Z;
  topic : ConversationTopic;
  name : string;
  isGroupActive : bool;
  addedByInboxId : InboxId;
  imageUrlSquare : string;
  description : string;
  state : ConsentState;
  lastMessage : option DecodedMessage;
}.

(** [version = ConversationVersion.GROUP as const] *)
Definition version (_ : t) : ConversationVersion.t := ConversationVersion.GROUP.

Definition constructor (clientInstallationId : InstallationId) (params : GroupParams)
    (lastMessage : option DecodedMessage) : t :=
  {| clientInstallationId := clientInstallationId;
     id := gp_id params;
     createdAt := gp_createdAt params;
     topic := gp_topic params;
     name := gp_name params;
     isGroupActive := gp_isActive params;
     addedByInboxId := gp_addedByInboxId params;
     imageUrlSquare := gp_imageUrlSquare params;
     description := gp_description params;
     state := gp_consentState params;
     lastMessage := lastMessage |}.

Section Methods.

Context {Remote : Type}.
Variable XMTP : XMTPModule.t Remote.

Definition get_codecRegistry : M Remote (gmap string Codec) :=
  fun w => (Ok (codecRegistry w), w).

Definition _sendWithJSCodec (this : t) (content : SendPayload)
    (contentType : ContentTypeId) : M Remote MessageId :=
  let* registry := get_codecRegistry in
  match registry !! codec_key contentType with
  | None => throw (CodecMissing contentType)
  | Some codec =>
      await_native
        (call_sendWithContentType (clientInstallationId this) (id this) content codec)
        (XMTPModule.sendWithContentType XMTP
           (clientInstallationId this) (id this) content codec)
  end.

(** [if (typeof content === 'string') { content = { text: content } }] *)
Definition to_native_content (content : SendPayload) : MessageContent :=
  match content with
  | payload_string s => text_content s
  | payload_content c => c
  end.

Definition send (this : t) (content : SendPayload) (opts : option SendOptions)
  : M Remote MessageId :=
  match opts ≫= contentType with
  | Some ct => _sendWithJSCodec this content ct
  | None =>
      try_catch
        (let content := to_native_content content in
         await_native
           (call_sendMessage (clientInstallationId this) (id this) content)
           (XMTPModule.sendMessage XMTP (clientInstallationId this) (id this) content))
        (fun e => console_info ("ERROR in send() " +:+ error_message e) ;; throw e)
  end.

Definition _prepareWithJSCodec (this : t) (content : SendPayload)
    (contentType : ContentTypeId) : M Remote MessageId :=
  let* registry := get_codecRegistry in
  match registry !! codec_key contentType with
  | None => throw (CodecMissing contentType)
  | Some codec =>
      await_native
        (call_prepareMessageWithContentType
           (clientInstallationId this) (id this) content codec)
        (XMTPModule.prepareMessageWithContentType XMTP
           (clientInstallationId this) (id this) content codec)
  end.

Definition prepareMessage (this : t) (content : SendPayload) (opts : option SendOptions)
  : M Remote MessageId :=
  match opts ≫= contentType with
  | Some ct => _prepareWithJSCodec this content ct
  | None =>
      try_catch
        (let content := to_native_content content in
         await_native
           (call_prepareMessage (clientInstallationId this) (id this) content)
           (XMTPModule.prepareMessage XMTP (clientInstallationId this) (id this) content))
        (fun e =>
           console_info ("ERROR in prepareGroupMessage() " +:+ error_message e) ;;
           throw e)
  end.

(** Listener of [streamMessages]. *)
Definition streamMessages_on (h : nat) (this_clientInstallationId : InstallationId)
    (this_id : ConversationId) (callback : Callback)
    (installationId : InstallationId) (message : DecodedMessage)
    (conversationId : ConversationId) : M Remote unit :=
  if bool_decide (installationId <> this_clientInstallationId) then ret tt
  else if bool_decide (conversationId <> this_id) then ret tt
  else
    await_callback h callback
      {| entity_class := MessageFromObject; entity_raw := RawMessage message |}.

Definition streamMessages (this : t) (callback : Callback) : M Remote CancelFunction :=
  await_native (call_subscribeToMessages (clientInstallationId this) (id this))
    (XMTPModule.subscribeToMessages XMTP (clientInstallationId this) (id this)) ;;
  let* messageSubscription :=
    addListener
      (streamMessages_listener (clientInstallationId this) (id this) callback) in
  ret (streamMessages_cancel messageSubscription (clientInstallationId this) (id this)).

Definition consentState (this : t) : M Remote ConsentState :=
  await_native (call_conversationConsentState (clientInstallationId this) (id this))
    (XMTPModule.conversationConsentState XMTP (clientInstallationId this) (id this)).

Definition updateConsent (this : t) (state : ConsentState) : M Remote unit :=
  await_native
    (call_updateConversationConsent (clientInstallationId this) (id this) state)
    (XMTPModule.updateConversationConsent XMTP
       (clientInstallationId this) (id this) state).

End Methods.
End Group.

(** ** The emitter and the returned cancel functions *)

Section Emitter.

Context {Remote : Type}.
Variable XMTP : XMTPModule.t Remote.

(** Calling the registered function of listener [l] with event [ev].  The
    emitter calls a listener only with events of the type it was registered
    for, so the last case is never reached from [emit]. *)
Definition run_listener (l : Listener) (ev : Event) : M Remote unit :=
  match body l, ev with
  | streamGroups_listener cb, Ev_Group inboxId group =>
      Conversations.streamGroups_on (handle l) cb inboxId group
  | streamConversations_listener cb, Ev_ConversationV3 inboxId conversation =>
      Conversations.streamConversations_on (handle l) cb inboxId conversation
  | stream_listener cb, Ev_Conversation inboxId conversation =>
      Conversations.stream_on (handle l) cb inboxId conversation
  | streamAll_listener cb, Ev_ConversationContainer inboxId conversationContainer =>
      Conversations.streamAll_on (handle l) cb inboxId conversationContainer
  | streamAllMessages_listener cb, Ev_Message inboxId message
  | streamAllGroupMessages_listener cb, Ev_AllGroupMessage inboxId message
  | streamAllConversationMessages_listener cb, Ev_AllConversationMessages inboxId message =>
      Conversations.message_on (handle l) cb inboxId message
  | streamMessages_listener this_inst this_id cb,
    Ev_ConversationMessage installationId message conversationId =>
      Group.streamMessages_on (handle l) this_inst this_id cb
        installationId message conversationId
  | _, _ => ret tt
  end.

(** The emitter calls the listener and drops the promise it returns: a
    rejection is handled by nobody. *)
Definition dispatch (ev : Event) (w : World Remote) (l : Listener) : World Remote :=
  match run_listener l ev w with
  | (Ok _, w') => w'
  | (Throw e, w') => add_unhandled (handle l) e w'
  end.

Definition listens_to (ev : Event) (l : Listener) : bool :=
  bool_decide (listener_event (body l) = event_type ev).

(** Modelled from the spec: "Gateway pushes remote events -> Subscription
    Manager receives", with delivery in the order of emission.  The native
    side pushes [ev]: the listeners registered for its type are called one
    after the other, in registration order, each up to its first [await]
    that suspends, which is the call of the callback. *)
Definition emit (ev : Event) (w : World Remote) : World Remote :=
  fold_left (dispatch ev) (List.filter (listens_to ev) (emitter w)) w.

Definition emit_all (evs : list Event) (w : World Remote) : World Remote :=
  fold_left (fun w ev => emit ev w) evs w.

(** Calling a cancel function returned by a stream method. *)
Definition call_cancel (f : CancelFunction) : M Remote unit :=
  match f with
  | streamGroups_cancel groupsSubscription =>
      let* this := get_this in
      remove groupsSubscription ;;
      post_native XMTP (call_unsubscribeFromGroups (client_inboxId this))
  | streamConversations_cancel subscription =>
      let* this := get_this in
      remove subscription ;;
      post_native XMTP (call_unsubscribeFromV3Conversations (client_inboxId this))
  | streamAll_cancel subscription =>
      remove subscription ;;
      Conversations.cancelStream XMTP
  | streamMessages_cancel messageSubscription clientInstallationId id =>
      remove messageSubscription ;;
      await_native (call_unsubscribeFromMessages clientInstallationId id)
        (XMTPModule.unsubscribeFromMessages XMTP clientInstallationId id)
  end.

End Emitter.

(** ** [HomeScreen]: a caller of the consent methods *)

Module HomeScreen.
Section Handlers.

Context {Remote : Type}.
Variable XMTP : XMTPModule.t Remote.

(** [denyGroup] of [GroupListItem]; the result is the value handed to
    [setConsentState]. *)
Definition denyGroup (group : Group.t) : M Remote ConsentState :=
  Group.updateConsent XMTP group denied ;;
  let* consent := Group.consentState XMTP group in
  ret consent.

End Handlers.
End HomeScreen.

(** ** The native encoder ([GroupWrapper.kt]) *)

(** What the encoder reads from the Android library objects: the value each
    accessor returns. [messages] is what [group.messages()] lists, first
    element first. *)
Module Android.
Inductive ConsentState := ALLOWED | DENIED | UNKNOWN.

Record Message := { messageId : string; body : string }.

Record Client := { address : string }.

Record Group := {
  id : string;
  createdAt_time : Z;
  topic : string;
  isActive : bool;
  addedByInboxId : string;
  name : string;
  imageUrlSquare : string;
  description : string;
  consentState : ConsentState;
  messages : list Message;
}.

(** [group.messages(limit = n)] *)
Definition messages_limit (group : Group) (limit : nat) : list Message :=
  take limit (messages group).
End Android.

Definition consentStateToString (state : Android.ConsentState) : string :=
  match state with
  | Android.ALLOWED => "allowed"
  | Android.DENIED => "denied"
  | Android.UNKNOWN => "unknown"
  end.

(** The values of the [Map<String, Any>] that the encoder builds.
    [MessageWrapper.encode] is outside these files: its result is kept as the
    message it is applied to. *)
Inductive Any :=
| AnyString (s : string)
| AnyLong (n : Z)
| AnyBoolean (b : bool)
| AnyEncodedMessage (m : Android.Message).

Module ConversationParamsWrapper.

Record t := {
  isActive : bool;
  addedByInboxId : bool;
  name : bool;
  imageUrlSquare : bool;
  description : bool;
  consentState : bool;
  lastMessage : bool;
}.

(** The constructor called with no argument: the declared defaults. *)
Definition defaults : t :=
  {| isActive := true; addedByInboxId := true; name := true;
     imageUrlSquare := true; description := true; consentState := true;
     lastMessage := false |}.

Section FromJson.

(** [JsonParser.parseString(s).asJsonObject] read through [has] and
    [get(..).asBoolean]: the boolean members of the parsed object. *)
Variable parseString : string -> gmap string bool.

Definition conversationParamsFromJson (conversationParams : string) : t :=
  if bool_decide (conversationParams = "") then defaults
  else
    let jsonOptions := parseString conversationParams in
    {| isActive := default true (jsonOptions !! "isActive");
       addedByInboxId := default true (jsonOptions !! "addedByInboxId");
       name := default true (jsonOptions !! "name");
       imageUrlSquare := default true (jsonOptions !! "imageUrlSquare");
       description := default true (jsonOptions !! "description");
       consentState := default true (jsonOptions !! "consentState");
       lastMessage := default false (jsonOptions !! "lastMessage") |}.

End FromJson.
End ConversationParamsWrapper.

Module GroupWrapper.

(** [put(k, v)] inside [buildMap]. *)
Definition put (k : string) (v : Any) (m : gmap string Any) : gmap string Any :=
  <[k := v]> m.

(** [if (c) put(k, v)] *)
Definition put_if (c : bool) (k : string) (v : Any) (m : gmap string Any)
  : gmap string Any :=
  if c then put k v m else m.

Definition encodeToObj (client : Android.Client) (group : Android.Group)
    (groupParams : ConversationParamsWrapper.t) : gmap string Any :=
  let m := put "clientAddress" (AnyString (Android.address client)) ∅ in
  let m := put "id" (AnyString (Android.id group)) m in
  let m := put "createdAt" (AnyLong (Android.createdAt_time group)) m in
  let m := put "version" (AnyString "GROUP") m in
  let m := put "topic" (AnyString (Android.topic group)) m in
  let m := put_if (ConversationParamsWrapper.isActive groupParams)
             "isActive" (AnyBoolean (Android.isActive group)) m in
  let m := put_if (ConversationParamsWrapper.addedByInboxId groupParams)
             "addedByInboxId" (AnyString (Android.addedByInboxId group)) m in
  let m := put_if (ConversationParamsWrapper.name groupParams)
             "name" (AnyString (Android.name group)) m in
  let m := put_if (ConversationParamsWrapper.imageUrlSquare groupParams)
             "imageUrlSquare" (AnyString (Android.imageUrlSquare group)) m in
  let m := put_if (ConversationParamsWrapper.description groupParams)
             "description" (AnyString (Android.description group)) m in
  let m := put_if (ConversationParamsWrapper.consentState groupParams)
             "consentState"
             (AnyString (consentStateToString (Android.consentState group))) m in
  if ConversationParamsWrapper.lastMessage groupParams then
    match head (Android.messages_limit group 1) with
    | Some lastMessage => put "lastMessage" (AnyEncodedMessage lastMessage) m
    | None => m
    end
  else m.

End GroupWrapper.

(** The optional fields of the encoded snapshot, their key in the map and
    the option that asks for them. *)
Inductive OptionalField :=
| F_isActive
| F_addedByInboxId
| F_name
| F_imageUrlSquare
| F_description
| F_consentState
| F_lastMessage.

Definition field_key (f : OptionalField) : string :=
  match f with
  | F_isActive => "isActive"
  | F_addedByInboxId => "addedByInboxId"
  | F_name => "name"
  | F_imageUrlSquare => "imageUrlSquare"
  | F_description => "description"
  | F_consentState => "consentState"
  | F_lastMessage => "lastMessage"
  end.

Definition requested (p : ConversationParamsWrapper.t) (f : OptionalField) : bool :=
  match f with
  | F_isActive => ConversationParamsWrapper.isActive p
  | F_addedByInboxId => ConversationParamsWrapper.addedByInboxId p
  | F_name => ConversationParamsWrapper.name p
  | F_imageUrlSquare => ConversationParamsWrapper.imageUrlSquare p
  | F_description => ConversationParamsWrapper.description p
  | F_consentState => ConversationParamsWrapper.consentState p
  | F_lastMessage => ConversationParamsWrapper.lastMessage p
  end.

(** [key in obj] *)
Definition present (obj : gmap string Any) (k : string) : bool :=
  bool_decide (is_Some (obj !! k)).

(** ** A simulated native module, for the concrete runs *)

Module Sim.

(** What the simulated network does with a consent write. *)
Inductive WritePolicy := applies | drops | rejects.

Record Remote := {
  consent : gmap string ConsentState;
  policy : WritePolicy;
  listed : list ConversationContainerParams;
  groups : list GroupParams;
  sent : nat;
}.

Definition with_consent (c : gmap string ConsentState) (r : Remote) : Remote :=
  {| consent := c; policy := policy r; listed := listed r; groups := groups r;
     sent := sent r |}.

Definition sending (r : Remote) : Result MessageId * Remote :=
  (Ok ("m" +:+ pretty (sent r)),
   {| consent := consent r; policy := policy r; listed := listed r;
      groups := groups r; sent := S (sent r) |}).

Definition update (id : ConversationId) (s : ConsentState) (r : Remote)
  : Result unit * Remote :=
  match policy r with
  | applies => (Ok tt, with_consent (<[id := s]> (consent r)) r)
  | drops => (Ok tt, r)
  | rejects => (Throw (NativeError "consent update rejected"), r)
  end.

Definition module : XMTPModule.t Remote :=
  {| XMTPModule.listGroups := fun _ _ r => (Ok (groups r), r);
     XMTPModule.listAll := fun _ r => (Ok (listed r), r);
     XMTPModule.listV3Conversations := fun _ _ r => (Ok (listed r), r);
     XMTPModule.sendMessage := fun _ _ _ r => sending r;
     XMTPModule.sendWithContentType := fun _ _ _ _ r => sending r;
     XMTPModule.prepareMessage := fun _ _ _ r => sending r;
     XMTPModule.prepareMessageWithContentType := fun _ _ _ _ r => sending r;
     XMTPModule.subscribeToMessages := fun _ _ r => (Ok tt, r);
     XMTPModule.unsubscribeFromMessages := fun _ _ r => (Ok tt, r);
     XMTPModule.conversationConsentState :=
       fun _ id r => (Ok (default unknown (consent r !! id)), r);
     XMTPModule.updateConversationConsent := fun _ id s r => update id s r;
     XMTPModule.notify := fun _ r => r |}.

Definition remote0 : Remote :=
  {| consent := ∅; policy := applies; listed := []; groups := []; sent := 0 |}.

(** A fresh process: a [Conversations] object of client [inboxId] as the
    constructor leaves it, with [this.known] undefined, and nothing
    registered. *)
Definition world (inboxId : InboxId) (r : Remote) : World Remote :=
  {| conversations :=
       {| client_inboxId := inboxId; known := undefined; subscriptions := ∅ |};
     codecRegistry := ∅;
     emitter := [];
     next_handle := 0;
     calls := [];
     remote := r;
     invoked := [];
     unhandled := [];
     console := [] |}.

Definition resolves : Callback := fun _ => None.
Definition rejects_always : Callback := fun _ => Some (CallbackError "boom").

(** Run a method for its effect on the process. *)
Definition exec {A} (m : M Remote A) (w : World Remote) : World Remote := snd (m w).

End Sim.

(** ** Vocabulary of the statements *)

(** The value stored under each optional key when it is stored. *)
Definition field_value (group : Android.Group) (f : OptionalField) : option Any :=
  match f with
  | F_isActive => Some (AnyBoolean (Android.isActive group))
  | F_addedByInboxId => Some (AnyString (Android.addedByInboxId group))
  | F_name => Some (AnyString (Android.name group))
  | F_imageUrlSquare => Some (AnyString (Android.imageUrlSquare group))
  | F_description => Some (AnyString (Android.description group))
  | F_consentState =>
      Some (AnyString (consentStateToString (Android.consentState group)))
  | F_lastMessage => AnyEncodedMessage <$> head (Android.messages group)
  end.

(** A field can be encoded only if the group has it: every field but
    [lastMessage] always, [lastMessage] when the group has a message
    ([if (lastMessage != null)]). *)
Definition available (group : Android.Group) (f : OptionalField) : bool :=
  match f with
  | F_lastMessage => bool_decide (Android.messages group <> [])
  | _ => true
  end.

(** The reading "present exactly when requested", for one encoding. *)
Definition present_iff_requested (client : Android.Client) (group : Android.Group)
    (p : ConversationParamsWrapper.t) : Prop :=
  forall f, present (GroupWrapper.encodeToObj client group p) (field_key f) = requested p f.

Module EncoderExample.
Definition client : Android.Client := {| Android.address := "0xabc" |}.

Definition empty_group : Android.Group :=
  {| Android.id := "g1"; Android.createdAt_time := 1700000000000;
     Android.topic := "/xmtp/mls/1/g-g1/proto"; Android.isActive := true;
     Android.addedByInboxId := "inbox-b"; Android.name := "team";
     Android.imageUrlSquare := ""; Android.description := "";
     Android.consentState := Android.ALLOWED; Android.messages := [] |}.

Definition everything : ConversationParamsWrapper.t :=
  {| ConversationParamsWrapper.isActive := true;
     ConversationParamsWrapper.addedByInboxId := true;
     ConversationParamsWrapper.name := true;
     ConversationParamsWrapper.imageUrlSquare := true;
     ConversationParamsWrapper.description := true;
     ConversationParamsWrapper.consentState := true;
     ConversationParamsWrapper.lastMessage := true |}.
End EncoderExample.

(** The event types whose [Conversations] listener tests [this.known]
    before it calls the callback: for an event addressed to its client, the
    read of [this.known] is the first thing it does. *)
Definition checks_known (t : EventTypes.t) : bool :=
  match t with
  | EventTypes.Conversation | EventTypes.ConversationContainer
  | EventTypes.Message | EventTypes.AllGroupMessage
  | EventTypes.AllConversationMessages => true
  | EventTypes.Group | EventTypes.ConversationV3
  | EventTypes.ConversationMessage => false
  end.

(** The rejections left unhandled when each of the listeners [ls] rejects
    with [e]. *)
Definition rejected_with (e : Error) (ls : list Listener) : list (nat * Error) :=
  map (fun l => (handle l, e)) ls.

(** The client a listener belongs to: the inbox id of the [Conversations]
    object for its listeners, the installation id the [Group] was built
    with for a group listener. *)
Definition listener_identity (c : Conversations_t) (l : Listener) : string :=
  match body l with
  | streamMessages_listener clientInstallationId _ _ => clientInstallationId
  | _ => client_inboxId c
  end.

(** The six cancel methods of [Conversations]. *)
Inductive CancelMethod :=
| by_cancelStream
| by_cancelStreamGroups
| by_cancelStreamConversations
| by_cancelStreamAllMessages
| by_cancelStreamAllGroupMessages
| by_cancelStreamAllConversations.

Definition cancel_key (m : CancelMethod) : EventTypes.t :=
  match m with
  | by_cancelStream => EventTypes.Conversation
  | by_cancelStreamGroups => EventTypes.Group
  | by_cancelStreamConversations => EventTypes.ConversationV3
  | by_cancelStreamAllMessages => EventTypes.Message
  | by_cancelStreamAllGroupMessages => EventTypes.AllGroupMessage
  | by_cancelStreamAllConversations => EventTypes.AllConversationMessages
  end.

Definition cancel_call (m : CancelMethod) (inboxId : InboxId) : GatewayCall :=
  match m with
  | by_cancelStream => call_unsubscribeFromConversations inboxId
  | by_cancelStreamGroups => call_unsubscribeFromGroups inboxId
  | by_cancelStreamConversations => call_unsubscribeFromV3Conversations inboxId
  | by_cancelStreamAllMessages => call_unsubscribeFromAllMessages inboxId
  | by_cancelStreamAllGroupMessages => call_unsubscribeFromAllGroupMessages inboxId
  | by_cancelStreamAllConversations =>
      call_unsubscribeFromAllConversationMessages inboxId
  end.

Definition run_cancel {Remote : Type} (XMTP : XMTPModule.t Remote) (m : CancelMethod)
  : M Remote unit :=
  match m with
  | by_cancelStream => Conversations.cancelStream XMTP
  | by_cancelStreamGroups => Conversations.cancelStreamGroups XMTP
  | by_cancelStreamConversations => Conversations.cancelStreamConversations XMTP
  | by_cancelStreamAllMessages => Conversations.cancelStreamAllMessages XMTP
  | by_cancelStreamAllGroupMessages => Conversations.cancelStreamAllGroupMessages XMTP
  | by_cancelStreamAllConversations => Conversations.cancelStreamAllConversations XMTP
  end.

(** Number of native unsubscribe calls in a log. *)
Definition unsubscribe_count (l : list GatewayCall) : nat :=
  length (List.filter is_unsubscribe l).

(** Concrete data for the runs below. *)
Module Scenario.
Definition conversation_t : ConversationParams :=
  {| cp_topic := "/xmtp/0/m-topic"; cp_createdAt := 1700000000000 |}.



Definition message (id : string) : DecodedMessage :=
  {| msg_id := id; msg_topic := "/xmtp/0/m-topic"; msg_fallback := "hello" |}.

Definition group_params : GroupParams :=
  {| gp_id := "g1"; gp_createdAt := 1700000000000; gp_topic := "/xmtp/mls/1/g-g1/proto";
     gp_name := "team"; gp_isActive := true; gp_addedByInboxId := "inbox-b";
     gp_imageUrlSquare := ""; gp_description := ""; gp_consentState := allowed;
     gp_lastMessage := None |}.

Definition group : Group.t := Group.constructor "install-a" group_params None.

Definition text_type : ContentTypeId :=
  {| authorityId := "xmtp.org"; typeId := "text"; versionMajor := 1; versionMinor := 0 |}.

Definition fresh : World Sim.Remote := Sim.world "inbox-a" Sim.remote0.

(** A process whose codec registry holds a codec for [text_type]. *)
Definition with_text_codec : World Sim.Remote :=
  {| conversations := conversations fresh;
     codecRegistry := {[ "xmtp.org/text:1.0" := {| codec_name := "TextCodec" |} ]};
     emitter := []; next_handle := 0; calls := []; remote := Sim.remote0;
     invoked := []; unhandled := []; console := [] |}.

(** [stream] and then [streamAll] started on a fresh object. *)
Definition two_categories : World Sim.Remote :=
  Sim.exec (Conversations.streamAll Sim.module Sim.resolves)
    (Sim.exec (Conversations.stream Sim.module Sim.resolves) fresh).

(** [stream] started twice without a cancel in between. *)
Definition stream_twice : World Sim.Remote :=
  Sim.exec (Conversations.stream Sim.module Sim.resolves)
    (Sim.exec (Conversations.stream Sim.module Sim.resolves) fresh).

(** [Group.streamMessages] on [group] with a callback that always rejects. *)
Definition failing_callback : World Sim.Remote :=
  Sim.exec (Group.streamMessages Sim.module group Sim.rejects_always) fresh.



(** A network on which the group's consent is [allowed] and a write is
    dropped (another device wins). *)
Definition write_dropped : World Sim.Remote :=
  Sim.world "inbox-a"
    {| Sim.consent := {[ "g1" := allowed ]}; Sim.policy := Sim.drops;
       Sim.listed := []; Sim.groups := []; Sim.sent := 0 |}.
End Scenario.

(** What delivering an event leaves alone: everything but the record of
    the callback invocations and of the unhandled rejections. *)
Definition same_frame {Remote : Type} (w w' : World Remote) : Prop :=
  emitter w' = emitter w /\ next_handle w' = next_handle w /\
  console w' = console w /\ calls w' = calls w /\ remote w' = remote w /\
  codecRegistry w' = codecRegistry w /\
  conversations w' = conversations w.

(** The rejections among the invocations [news] of callback [callback]. *)
Definition rejections (callback : Callback) (news : list (nat * Entity))
  : list (nat * Error) :=
  flat_map (fun '(h, x) => match callback x with Some e => [(h, e)] | None => [] end) news.

(** The keys [encodeToObj] can put: the five it always puts, then the
    optional ones. *)
Definition fixed_keys : list string :=
  ["clientAddress"; "id"; "createdAt"; "version"; "topic"].

Definition optional_keys : list string :=
  map field_key
    [F_isActive; F_addedByInboxId; F_name; F_imageUrlSquare; F_description;
     F_consentState; F_lastMessage].

(** The value of an option of [ConversationParamsWrapper] when nothing is
    said about it: the default of the constructor parameter, which is also
    the [else] branch of [conversationParamsFromJson]. *)
Definition default_requested (f : OptionalField) : bool :=
  match f with
  | F_lastMessage => false
  | _ => true
  end.


(** * Properties *)

(** ** Field selection in the native encoder *)

Lemma lookup_put_eq k v (m : gmap string Any) :
  GroupWrapper.put k v m !! k = Some v.
Proof. apply lookup_insert_eq. Qed.

Lemma lookup_put_ne k k' v (m : gmap string Any) :
  k' <> k -> GroupWrapper.put k' v m !! k = m !! k.
Proof. intros. by apply lookup_insert_ne. Qed.

Lemma lookup_put_if_eq c k v (m : gmap string Any) :
  GroupWrapper.put_if c k v m !! k = if c then Some v else m !! k.
Proof. destruct c; [apply lookup_put_eq | reflexivity]. Qed.

Lemma lookup_put_if_ne c k k' v (m : gmap string Any) :
  k' <> k -> GroupWrapper.put_if c k' v m !! k = m !! k.
Proof. destruct c; [apply lookup_put_ne | reflexivity]. Qed.

Ltac lookup_built_map :=
  repeat first
    [ rewrite lookup_put_if_eq
    | rewrite lookup_put_if_ne by discriminate
    | rewrite lookup_put_eq
    | rewrite lookup_put_ne by discriminate
    | rewrite lookup_empty ].

Section Encoder.

Variables (client : Android.Client) (group : Android.Group).


Lemma encodeToObj_lookup (p : ConversationParamsWrapper.t) (f : OptionalField) :
  GroupWrapper.encodeToObj client group p !! field_key f =
  if requested p f then field_value group f else None.
Proof.
  unfold GroupWrapper.encodeToObj, Android.messages_limit.
  destruct (ConversationParamsWrapper.lastMessage p) eqn:Hlast;
    [destruct (Android.messages group) as [|m0 ms] eqn:Hms; cbn [take head] |];
    destruct f; cbn [field_key requested field_value];
    rewrite ?Hlast, ?Hms; cbn [head fmap option_fmap option_map];
    lookup_built_map;
    repeat match goal with |- context [if ?c then _ else _] => destruct c end;
    reflexivity.
Qed.

End Encoder.


(** C9, as stated, fails: [lastMessage] is requested for a group that has no
    message, and the encoded object has no ["lastMessage"] key. *)
Lemma lastMessage_requested_but_absent :
  requested EncoderExample.everything F_lastMessage = true /\
  GroupWrapper.encodeToObj EncoderExample.client EncoderExample.empty_group
    EncoderExample.everything !! "lastMessage" = None /\
  ~ present_iff_requested EncoderExample.client EncoderExample.empty_group
      EncoderExample.everything.
Proof.
  split; [reflexivity |].
  assert (Hnone :
    GroupWrapper.encodeToObj EncoderExample.client EncoderExample.empty_group
      EncoderExample.everything !! "lastMessage" = None)
    by (exact (encodeToObj_lookup EncoderExample.client EncoderExample.empty_group
                 EncoderExample.everything F_lastMessage)).
  split; [exact Hnone |].
  intros Hall. specialize (Hall F_lastMessage).
  unfold present in Hall. cbn [field_key requested] in Hall.
  rewrite Hnone in Hall.
  cbn in Hall. discriminate.
Qed.

(** C9 (amended): an optional field of the encoded snapshot is present
    exactly when the options request it and the group has it; the six fields
    [isActive], [addedByInboxId], [name], [imageUrlSquare], [description] and
    [consentState] are always there to encode, [lastMessage] only when the
    group has a message.  A field that is not requested is never in the
    object. *)
Theorem encodeToObj_field_selection
    (client : Android.Client) (group : Android.Group)
    (p : ConversationParamsWrapper.t) (f : OptionalField) :
  present (GroupWrapper.encodeToObj client group p) (field_key f)
  = requested p f && available group f.
Proof.
  unfold present. rewrite encodeToObj_lookup.
  destruct (requested p f) eqn:Hreq; cbn [andb].
  - destruct f; cbn [field_value available];
      try (apply bool_decide_eq_true; eexists; reflexivity).
    destruct (Android.messages group) as [|m0 ms]; reflexivity.
  - apply bool_decide_eq_false. intros [? ?]; discriminate.
Qed.

(** With no options string the six metadata fields are requested and
    [lastMessage] is not; a key missing from the options takes that default. *)
Lemma conversationParamsFromJson_defaults (parseString : string -> gmap string bool)
    (s : string) (f : OptionalField) :
  (s = "" \/ parseString s !! field_key f = None) ->
  requested (ConversationParamsWrapper.conversationParamsFromJson parseString s) f
  = match f with F_lastMessage => false | _ => true end.
Proof.
  unfold ConversationParamsWrapper.conversationParamsFromJson.
  intros [-> | Hmiss].
  - destruct f; reflexivity.
  - case_bool_decide; [destruct f; reflexivity |].
    destruct f; cbn [requested field_key] in *; cbn; rewrite Hmiss; reflexivity.
Qed.

(** ** Methods of the two classes *)

Ltac run_method :=
  cbv beta iota zeta delta
    [bind ret throw try_catch get_this post_native await_native addListener remove
     set_subscription delete_subscription console_info await_callback
     Group.get_codecRegistry
     read_known set_known new_Conversation
     set_conversations set_emitter set_remote add_invoked add_unhandled add_console
     with_subscriptions
     conversations codecRegistry emitter next_handle calls remote invoked unhandled
     console client_inboxId known subscriptions fst snd default from_option].

Section MethodFacts.

Context {Remote : Type}.
Variable XMTP : XMTPModule.t Remote.

Implicit Types (w : World Remote) (this : Group.t).

(** C10: [streamAllMessages] called without [includeGroups] subscribes with
    [includeGroups = false]; a given value is passed on as it is. *)
Theorem streamAllMessages_excludes_groups_by_default w (callback : Callback) :
  calls (snd (Conversations.streamAllMessages XMTP callback None w))
  = calls w ++ [call_subscribeToAllMessages (client_inboxId (conversations w)) false]
  /\ forall includeGroups : bool,
      calls (snd (Conversations.streamAllMessages XMTP callback (Some includeGroups) w))
      = calls w ++
        [call_subscribeToAllMessages (client_inboxId (conversations w)) includeGroups].
Proof.
  split; [| intros includeGroups];
    unfold Conversations.streamAllMessages; run_method; reflexivity.
Qed.

(** C6: with an explicit content type that has no codec in the registry,
    sending and preparing throw the missing-codec error and leave the process
    as it was, so no native call is made; with a codec registered, exactly
    the native call for that codec is made and its result is the result. *)
Theorem codec_missing_fails_fast w this (content : SendPayload) (ct : ContentTypeId) :
  let inst := Group.clientInstallationId this in
  let id := Group.id this in
  let opts := Some {| contentType := Some ct |} in
  match codecRegistry w !! codec_key ct with
  | None =>
      Group._sendWithJSCodec XMTP this content ct w = (Throw (CodecMissing ct), w) /\
      Group._prepareWithJSCodec XMTP this content ct w = (Throw (CodecMissing ct), w) /\
      Group.send XMTP this content opts w = (Throw (CodecMissing ct), w) /\
      Group.prepareMessage XMTP this content opts w = (Throw (CodecMissing ct), w)
  | Some codec =>
      let sent := Group.send XMTP this content opts w in
      let prepared := Group.prepareMessage XMTP this content opts w in
      sent = Group._sendWithJSCodec XMTP this content ct w /\
      prepared = Group._prepareWithJSCodec XMTP this content ct w /\
      calls (snd sent) = calls w ++ [call_sendWithContentType inst id content codec] /\
      fst sent = fst (XMTPModule.sendWithContentType XMTP inst id content codec (remote w)) /\
      calls (snd prepared)
      = calls w ++ [call_prepareMessageWithContentType inst id content codec] /\
      fst prepared
      = fst (XMTPModule.prepareMessageWithContentType XMTP inst id content codec (remote w))
  end.
Proof.
  intros inst id opts. destruct w as [c reg em nh cs rem inv unh con].
  cbn [codecRegistry calls remote].
  destruct (reg !! codec_key ct) as [codec|] eqn:Hcodec.
  - unfold Group.send, Group.prepareMessage, opts; cbn [mbind option_bind contentType].
    unfold Group._sendWithJSCodec, Group._prepareWithJSCodec.
    run_method. rewrite Hcodec.
    destruct (XMTPModule.sendWithContentType _ _ _ _ _ _) as [r1 rem1].
    destruct (XMTPModule.prepareMessageWithContentType _ _ _ _ _ _) as [r2 rem2].
    repeat split; reflexivity.
  - unfold Group.send, Group.prepareMessage, opts; cbn [mbind option_bind contentType].
    unfold Group._sendWithJSCodec, Group._prepareWithJSCodec.
    run_method. rewrite Hcodec. repeat split; reflexivity.
Qed.

(** The two cases on a concrete process: an empty registry, and a registry
    holding a codec for the content type. *)
Example send_without_codec :
  Group.send Sim.module Scenario.group (payload_string "hi")
    (Some {| contentType := Some Scenario.text_type |}) Scenario.fresh
  = (Throw (CodecMissing Scenario.text_type), Scenario.fresh).
Proof. reflexivity. Qed.

Example send_with_codec :
  let run :=
    Group.send Sim.module Scenario.group (payload_string "hi")
      (Some {| contentType := Some Scenario.text_type |}) Scenario.with_text_codec in
  codec_key Scenario.text_type = "xmtp.org/text:1.0" /\
  run.1 = Ok "m0" /\
  calls run.2
  = [call_sendWithContentType "install-a" "g1" (payload_string "hi")
       {| codec_name := "TextCodec" |}].
Proof. vm_compute. repeat split; reflexivity. Qed.

(** C3, as stated, fails: on a network that drops the write, [updateConsent]
    makes the one update call and no fetch, and hands back nothing; the
    authoritative state, still [allowed], is seen only by a separate
    [consentState] call. *)
Lemma updateConsent_does_not_refetch :
  let run := Group.updateConsent Sim.module Scenario.group denied Scenario.write_dropped in
  fst run = Ok tt /\
  calls (snd run) = [call_updateConversationConsent "install-a" "g1" denied] /\
  List.filter is_consent_fetch (calls (snd run)) = [] /\
  fst (Group.consentState Sim.module Scenario.group (snd run)) = Ok allowed.
Proof. vm_compute. repeat split; reflexivity. Qed.

(** C3 (amended): [updateConsent] sends the mutation to the native module
    and nothing else: one update call, no fetch, and its result is the
    answer to the write (nothing, or the error).  The authoritative state is
    read by a separate [consentState] call, which always asks the native
    module; a caller that wants the state after the write makes both calls,
    as [denyGroup] does, and then observes the fetched state, or the error of
    the write with no fetch made. *)
Theorem updateConsent_sends_only_the_mutation w this (s : ConsentState) :
  let inst := Group.clientInstallationId this in
  let id := Group.id this in
  let updated := Group.updateConsent XMTP this s w in
  let fetched := Group.consentState XMTP this w in
  let handled := HomeScreen.denyGroup XMTP this w in
  (updated.1 = (XMTPModule.updateConversationConsent XMTP inst id s (remote w)).1 /\
   remote updated.2 = (XMTPModule.updateConversationConsent XMTP inst id s (remote w)).2 /\
   calls updated.2 = calls w ++ [call_updateConversationConsent inst id s]) /\
  (fetched.1 = (XMTPModule.conversationConsentState XMTP inst id (remote w)).1 /\
   calls fetched.2 = calls w ++ [call_conversationConsentState inst id]) /\
  match XMTPModule.updateConversationConsent XMTP inst id denied (remote w) with
  | (Ok _, after_write) =>
      handled.1 = (XMTPModule.conversationConsentState XMTP inst id after_write).1 /\
      calls handled.2
      = calls w ++ [call_updateConversationConsent inst id denied;
                    call_conversationConsentState inst id]
  | (Throw e, _) =>
      handled.1 = Throw e /\
      calls handled.2 = calls w ++ [call_updateConversationConsent inst id denied]
  end.
Proof.
  intros inst id updated fetched handled.
  subst updated fetched handled inst id.
  destruct w as [c reg em nh cs rem inv unh con].
  unfold HomeScreen.denyGroup, Group.updateConsent, Group.consentState.
  run_method.
  destruct (XMTPModule.updateConversationConsent XMTP _ _ s rem) as [r1 rem1].
  destruct (XMTPModule.conversationConsentState XMTP _ _ rem) as [r2 rem2].
  destruct (XMTPModule.updateConversationConsent XMTP _ _ denied rem) as [[[]|e] rem3].
  - destruct (XMTPModule.conversationConsentState XMTP _ _ rem3) as [[s3|e3] rem4];
      cbn; rewrite <- ?app_assoc; repeat split; reflexivity.
  - cbn. repeat split; reflexivity.
Qed.

(** C4, as stated, fails: the second [cancelStream] makes a second native
    unsubscribe call. *)
Lemma second_cancel_unsubscribes_again :
  let started := Sim.exec (Conversations.stream Sim.module Sim.resolves) Scenario.fresh in
  let once := Sim.exec (Conversations.cancelStream Sim.module) started in
  let twice := Sim.exec (Conversations.cancelStream Sim.module) once in
  unsubscribe_count (calls once) = 1 /\
  unsubscribe_count (calls twice) = 2 /\
  calls twice = calls once ++ [call_unsubscribeFromConversations "inbox-a"].
Proof. vm_compute. repeat split; reflexivity. Qed.

(** C4 (amended): cancelling twice raises no error, and the second call
    finds no registered subscription: it removes no listener and leaves the
    object as the first call left it.  Each call makes the native
    unsubscribe call, so two cancels make two; when the native unsubscribe
    is idempotent, the second leaves the native side as the first left it. *)
Theorem cancel_twice_removes_once_unsubscribes_twice (m : CancelMethod) w :
  let first := run_cancel XMTP m w in
  let second := run_cancel XMTP m first.2 in
  let inboxId := client_inboxId (conversations w) in
  first.1 = Ok tt /\ second.1 = Ok tt /\
  emitter first.2
  = match subscriptions (conversations w) !! cancel_key m with
    | Some subscription => filter (fun l => handle l <> subscription) (emitter w)
    | None => emitter w
    end /\
  subscriptions (conversations first.2) !! cancel_key m = None /\
  emitter second.2 = emitter first.2 /\
  conversations second.2 = conversations first.2 /\
  calls first.2 = calls w ++ [cancel_call m inboxId] /\
  calls second.2 = calls w ++ [cancel_call m inboxId; cancel_call m inboxId] /\
  (let unsubscribe := XMTPModule.notify XMTP (cancel_call m inboxId) in
   unsubscribe (unsubscribe (remote w)) = unsubscribe (remote w) ->
   remote second.2 = remote first.2).
Proof.
  intros first second inboxId. subst first second inboxId.
  destruct w as [[inbox kn subs] reg em nh cs rem inv unh con].
  destruct m; cbn [run_cancel cancel_key cancel_call];
    unfold Conversations.cancelStream, Conversations.cancelStreamGroups,
      Conversations.cancelStreamConversations, Conversations.cancelStreamAllMessages,
      Conversations.cancelStreamAllGroupMessages,
      Conversations.cancelStreamAllConversations, Conversations.cancel_subscription;
    run_method;
    match goal with
    | |- context [subs !! ?k] => destruct (subs !! k) as [h|] eqn:Hsub
    end;
    run_method; rewrite ?lookup_delete_eq, ?Hsub; run_method;
    rewrite <- ?app_assoc; repeat split; first [reflexivity | intros Hidem; exact Hidem].
Qed.

End MethodFacts.

(** ** Listeners and the emitter *)

Ltac open_listener :=
  unfold Conversations.streamGroups_on, Conversations.streamConversations_on,
    Conversations.stream_on, Conversations.streamAll_on, Conversations.message_on,
    Group.streamMessages_on.

(** Case analysis along the tests of a listener body. *)
Ltac split_listener :=
  repeat (run_method;
          match goal with
          | |- context [if bool_decide ?P then _ else _] =>
              destruct (bool_decide_reflect P)
          | |- context [match ?f {| entity_class := ?c; entity_raw := ?r |}
                        with _ => _ end] =>
              destruct (f {| entity_class := c; entity_raw := r |}) eqn:?
          end);
  run_method;
  repeat match goal with
         | H : ~ (_ <> _) |- _ => apply dec_stable in H
         end;
  cbn [cc_version cc_topic cc_id] in *.

Section ListenerFacts.

Context {Remote : Type}.
Variable XMTP : XMTPModule.t Remote.

Implicit Types (w : World Remote) (l : Listener) (ev : Event).

Lemma same_frame_refl w : same_frame w w.
Proof. repeat split. Qed.

Lemma same_frame_trans w1 w2 w3 : same_frame w1 w2 -> same_frame w2 w3 -> same_frame w1 w3.
Proof.
  unfold same_frame. intros (?&?&?&?&?&?&?) (?&?&?&?&?&?&?).
  repeat split; congruence.
Qed.

Lemma dispatch_frame ev w l : same_frame w (dispatch ev w l).
Proof.
  destruct w as [[inbox kn subs] reg em nh cs rem inv unh con], l as [h b].
  unfold dispatch, run_listener; cbn [body handle].
  destruct b, ev; open_listener; split_listener; repeat split.
Qed.

(** An event that is not addressed to the client of a listener changes
    nothing when that listener is called with it. *)
Lemma run_listener_foreign ev w l :
  listener_identity (conversations w) l <> event_identity ev ->
  run_listener l ev w = (Ok tt, w).
Proof.
  destruct w as [[inbox kn subs] reg em nh cs rem inv unh con], l as [h b].
  unfold run_listener, listener_identity; cbn [body handle conversations client_inboxId].
  intros Hne.
  destruct b, ev; cbn [event_identity] in Hne; open_listener; split_listener;
    first [reflexivity | congruence].
Qed.

(** A listener of [Conversations] called with an event of its type that is
    addressed to its client: the first statement after the test of the inbox
    id uses [this.known], which throws; the callback is not reached. *)
Lemma run_listener_addressed ev w l :
  listens_to ev l = true ->
  event_type ev <> EventTypes.ConversationMessage ->
  event_identity ev = client_inboxId (conversations w) ->
  run_listener l ev w = (Throw this_known_is_undefined, w).
Proof.
  destruct w as [[inbox kn subs] reg em nh cs rem inv unh con], l as [h b].
  unfold run_listener, listens_to; cbn [body handle conversations client_inboxId].
  intros Hl Hty Hid. apply bool_decide_eq_true in Hl.
  destruct b, ev; try discriminate Hl; try (by destruct Hty);
    cbn [event_identity] in Hid; open_listener; split_listener;
    first [reflexivity | congruence].
Qed.

Lemma dispatch_addressed ev w l :
  listens_to ev l = true ->
  event_type ev <> EventTypes.ConversationMessage ->
  event_identity ev = client_inboxId (conversations w) ->
  dispatch ev w l = add_unhandled (handle l) this_known_is_undefined w.
Proof. intros Hl Hty Hid. unfold dispatch. by rewrite run_listener_addressed. Qed.

(** Every callback invocation made by a listener is made for an event of
    its type addressed to its client; the invocations that reject end up
    unhandled. *)
Lemma dispatch_invoked ev w l :
  exists news,
    invoked (dispatch ev w l) = invoked w ++ news /\
    forall h x, (h, x) ∈ news ->
      h = handle l /\
      listens_to ev l = true /\
      listener_identity (conversations w) l = event_identity ev.
Proof.
  destruct w as [[inbox kn subs] reg em nh cs rem inv unh con], l as [h b].
  unfold dispatch, run_listener, listens_to, listener_identity;
    cbn [body handle conversations client_inboxId invoked unhandled].
  destruct b, ev;
    cbn [event_identity listener_event event_type];
    open_listener; split_listener;
    first
      [ exists []; split; [by rewrite app_nil_r |];
        intros ? ? Hin; by apply elem_of_nil in Hin
      | eexists [_]; split; [reflexivity |];
        intros ? ? Hin; apply list_elem_of_singleton in Hin; simplify_eq;
        repeat split;
        first [reflexivity | congruence | by apply bool_decide_eq_true] ].
Qed.

(** *** The emitter *)

Lemma fold_dispatch_frame ev ls w : same_frame w (fold_left (dispatch ev) ls w).
Proof.
  revert w; induction ls as [|l ls IH]; intros w; cbn [fold_left].
  - apply same_frame_refl.
  - eapply same_frame_trans; [apply dispatch_frame | apply IH].
Qed.

Lemma emit_frame ev w : same_frame w (emit ev w).
Proof. apply fold_dispatch_frame. Qed.

Lemma emit_all_frame evs w : same_frame w (emit_all evs w).
Proof.
  unfold emit_all. revert w; induction evs as [|ev evs IH]; intros w; cbn [fold_left].
  - apply same_frame_refl.
  - eapply same_frame_trans; [apply emit_frame | apply IH].
Qed.

Lemma listener_identity_frame w w' l :
  same_frame w w' ->
  listener_identity (conversations w') l = listener_identity (conversations w) l.
Proof. intros (_&_&_&_&_&_&Hc). by rewrite Hc. Qed.

Lemma fold_dispatch_invoked ev ls w :
  exists news,
    invoked (fold_left (dispatch ev) ls w) = invoked w ++ news /\
    forall h x, (h, x) ∈ news ->
      exists l, l ∈ ls /\ handle l = h /\
        listener_identity (conversations w) l = event_identity ev.
Proof.
  revert w; induction ls as [|l ls IH]; intros w; cbn [fold_left].
  - exists []. split; [by rewrite app_nil_r |].
    intros ? ? Hin. by apply elem_of_nil in Hin.
  - destruct (dispatch_invoked ev w l) as (n1 & Hinv1 & Hn1).
    destruct (IH (dispatch ev w l)) as (n2 & Hinv2 & Hn2).
    exists (n1 ++ n2). split; [by rewrite Hinv2, Hinv1, app_assoc |].
    intros h x Hin. apply elem_of_app in Hin as [Hin | Hin].
    + destruct (Hn1 h x Hin) as (-> & _ & Hid).
      exists l. split; [left |]. by split.
    + destruct (Hn2 h x Hin) as (l' & Hl' & Hh & Hid).
      exists l'. split; [by right |]. split; [exact Hh |].
      by rewrite <- (listener_identity_frame w _ l' (dispatch_frame ev w l)).
Qed.

(** Delivering an event of a [Conversations] category addressed to the
    client: every listener of the category rejects at its use of
    [this.known], in registration order, and no callback is called. *)
Lemma fold_dispatch_addressed ev ls w :
  (forall l, l ∈ ls -> listens_to ev l = true) ->
  event_type ev <> EventTypes.ConversationMessage ->
  event_identity ev = client_inboxId (conversations w) ->
  invoked (fold_left (dispatch ev) ls w) = invoked w /\
  unhandled (fold_left (dispatch ev) ls w)
  = unhandled w ++ rejected_with this_known_is_undefined ls.
Proof.
  revert w; induction ls as [|l ls IH]; intros w Hls Hty Hid; cbn [fold_left].
  - split; [reflexivity |]. cbn. by rewrite app_nil_r.
  - rewrite (dispatch_addressed ev w l) by (first [apply Hls; left | assumption]).
    destruct (IH (add_unhandled (handle l) this_known_is_undefined w)) as [Hinv Hunh].
    + intros l' Hl'. apply Hls. by right.
    + exact Hty.
    + destruct w; exact Hid.
    + rewrite Hinv, Hunh. destruct w; cbn [add_unhandled invoked unhandled rejected_with map].
      split; [reflexivity |]. by rewrite <- app_assoc.
Qed.

Lemma emit_addressed ev w :
  event_type ev <> EventTypes.ConversationMessage ->
  event_identity ev = client_inboxId (conversations w) ->
  invoked (emit ev w) = invoked w /\
  unhandled (emit ev w)
  = unhandled w ++
    rejected_with this_known_is_undefined (List.filter (listens_to ev) (emitter w)).
Proof.
  intros Hty Hid. apply fold_dispatch_addressed; [| exact Hty | exact Hid].
  intros l Hl. apply list_elem_of_In in Hl. apply filter_In in Hl. tauto.
Qed.

(** C1 (the code on a first delivery): on the categories whose listener
    tests [this.known], a listener called with an event of its category
    addressed to its client rejects with a [TypeError] at the read of
    [this.known], before the callback; a delivery calls no callback and
    leaves one unhandled rejection per listener of the category. *)
Theorem first_delivery_throws_before_the_callback w ev :
  checks_known (event_type ev) = true ->
  event_identity ev = client_inboxId (conversations w) ->
  (forall l, listens_to ev l = true ->
     run_listener l ev w = (Throw this_known_is_undefined, w)) /\
  invoked (emit ev w) = invoked w /\
  unhandled (emit ev w)
  = unhandled w ++
    rejected_with this_known_is_undefined (List.filter (listens_to ev) (emitter w)).
Proof.
  intros Hchk Hid.
  assert (Hty : event_type ev <> EventTypes.ConversationMessage)
    by (intros Heq; rewrite Heq in Hchk; discriminate).
  split; [intros l Hl; by apply run_listener_addressed |].
  by apply emit_addressed.
Qed.

(** C8: a listener called with an event whose client identity differs from
    that of its own client returns at once: no callback, nothing changed.
    For a whole delivery: every callback invocation it makes comes from a
    registered listener of the identity the event is addressed to, and an
    event addressed to another client leaves the [Conversations] object,
    [this.known] included, as it was. *)
Theorem cross_client_isolation w ev :
  (forall l, listener_identity (conversations w) l <> event_identity ev ->
             run_listener l ev w = (Ok tt, w)) /\
  (exists news,
     invoked (emit ev w) = invoked w ++ news /\
     forall h x, (h, x) ∈ news ->
       exists l, l ∈ emitter w /\ handle l = h /\
         listener_identity (conversations w) l = event_identity ev) /\
  (event_identity ev <> client_inboxId (conversations w) ->
   conversations (emit ev w) = conversations w).
Proof.
  split; [intros l; apply run_listener_foreign |]. split.
  - unfold emit.
    destruct (fold_dispatch_invoked ev (List.filter (listens_to ev) (emitter w)) w)
      as (news & Hinv & Hnews).
    exists news. split; [exact Hinv |].
    intros h x Hin. destruct (Hnews h x Hin) as (l & Hl & Hh & Hid).
    exists l. split; [| by split].
    apply list_elem_of_In in Hl. apply filter_In in Hl as [Hl _].
    by apply list_elem_of_In.
  - intros _. by destruct (emit_frame ev w) as (_&_&_&_&_&_&Hc).
Qed.

(** C7, as stated, fails: the callback of [Group.streamMessages] rejects on
    a message of its group, and nothing is caught or logged: the promise of
    the listener rejects with the error of the callback, the console stays
    empty and the rejection is left unhandled. *)
Lemma rejection_is_neither_caught_nor_logged :
  let ev := Ev_ConversationMessage "install-a" (Scenario.message "m1") "g1" in
  let after := emit ev Scenario.failing_callback in
  (run_listener
     {| handle := 0; body := streamMessages_listener "install-a" "g1" Sim.rejects_always |}
     ev Scenario.failing_callback).1
  = Throw (CallbackError "boom") /\
  console after = [] /\
  unhandled after = [(0, CallbackError "boom")].
Proof. vm_compute. repeat split; reflexivity. Qed.

(** C7 (amended): a listener has no [try]/[catch]: when the callback
    rejects, the promise of the listener rejects with the same error, which
    nobody handles, and nothing is written to the console.  The stream is
    not terminated all the same: delivering events, whatever their outcome,
    never changes the registered listeners, and the listener of
    [Group.streamMessages] calls its callback for every message of its group
    and client, a rejection being left unhandled each time. *)
Theorem rejected_callback_is_unhandled_and_stream_goes_on w (evs : list Event) :
  (emitter (emit_all evs w) = emitter w /\ console (emit_all evs w) = console w) /\
  (forall h inst id (callback : Callback) message w0,
     let x := {| entity_class := MessageFromObject; entity_raw := RawMessage message |} in
     let group_listener :=
       {| handle := h; body := streamMessages_listener inst id callback |} in
     let w1 := dispatch (Ev_ConversationMessage inst message id) w0 group_listener in
     invoked w1 = invoked w0 ++ [(h, x)] /\
     unhandled w1 = unhandled w0 ++ rejections callback [(h, x)] /\
     console w1 = console w0 /\ emitter w1 = emitter w0).
Proof.
  split.
  - by destruct (emit_all_frame evs w) as (Hem & _ & Hcon & _).
  - intros h inst id callback message w0.
    destruct w0 as [[inbox kn subs] reg em nh cs rem inv unh con].
    unfold dispatch, run_listener; cbn [body handle].
    open_listener; split_listener; try congruence;
      cbn [rejections flat_map];
      match goal with H : ?cb _ = _ |- context [?cb _] => rewrite H end;
      cbn [app]; rewrite ?app_nil_r; repeat split; reflexivity.
Qed.

Lemma filter_listens_none ev (em : list Listener) :
  (forall l, l ∈ em -> listens_to ev l = false) ->
  List.filter (listens_to ev) em = [].
Proof.
  induction em as [|l em IH]; intros Hnone; cbn [List.filter]; [reflexivity |].
  rewrite (Hnone l) by left. apply IH. intros l' Hl'. apply Hnone. by right.
Qed.

Lemma filter_handles_below (em : list Listener) (n : nat) :
  (forall l, l ∈ em -> handle l < n) ->
  filter (fun l => handle l <> n) em = em.
Proof.
  induction em as [|l em IH]; intros Hlt; [reflexivity |].
  rewrite filter_cons_True.
  - f_equal. apply IH. intros l' Hl'. apply Hlt. by right.
  - specialize (Hlt l ltac:(left)). lia.
Qed.

(** The process after [stream]. *)
Lemma stream_world w (callback : Callback) :
  Conversations.stream XMTP callback w
  = (Ok tt,
     {| conversations :=
          with_subscriptions
            (<[EventTypes.Conversation := next_handle w]> (subscriptions (conversations w)))
            (conversations w);
        codecRegistry := codecRegistry w;
        emitter := emitter w ++ [{| handle := next_handle w; body := stream_listener callback |}];
        next_handle := S (next_handle w);
        calls := calls w ++ [call_subscribeToConversations (client_inboxId (conversations w))];
        remote :=
          XMTPModule.notify XMTP
            (call_subscribeToConversations (client_inboxId (conversations w))) (remote w);
        invoked := invoked w; unhandled := unhandled w; console := console w |}).
Proof.
  destruct w as [[inbox kn subs] reg em nh cs rem inv unh con].
  unfold Conversations.stream. run_method. reflexivity.
Qed.

(** C5, as stated, fails: a second [stream] on a category that already has
    a listener is accepted, and the first listener is not cancelled: both are
    registered, the registry remembers the second only, and [cancelStream]
    then leaves the first one registered. *)
Lemma second_stream_is_neither_rejected_nor_replacing :
  let second := Conversations.stream Sim.module Sim.resolves
                  (Sim.exec (Conversations.stream Sim.module Sim.resolves) Scenario.fresh) in
  let cancelled := Sim.exec (Conversations.cancelStream Sim.module) Scenario.stream_twice in
  second.1 = Ok tt /\
  second.2 = Scenario.stream_twice /\
  map handle (emitter Scenario.stream_twice) = [0; 1] /\
  subscriptions (conversations Scenario.stream_twice) !! EventTypes.Conversation = Some 1 /\
  map handle (emitter cancelled) = [0].
Proof. vm_compute. repeat split; reflexivity. Qed.

(** C5 (amended): starting [stream] while a listener of the category is
    registered is neither rejected nor preceded by a cancel.  Both listeners
    are registered with the emitter, the registry keeps the handle of the
    second only, and [cancelStream] removes the second and leaves the first
    registered with no entry in the registry. *)
Theorem second_stream_adds_a_second_listener w (callback1 callback2 : Callback) :
  (forall l, l ∈ emitter w -> handle l < next_handle w) ->
  let n := next_handle w in
  let listener1 := {| handle := n; body := stream_listener callback1 |} in
  let listener2 := {| handle := S n; body := stream_listener callback2 |} in
  let first := Conversations.stream XMTP callback1 w in
  let second := Conversations.stream XMTP callback2 first.2 in
  let cancelled := Conversations.cancelStream XMTP second.2 in
  first.1 = Ok tt /\ second.1 = Ok tt /\
  emitter second.2 = emitter w ++ [listener1; listener2] /\
  subscriptions (conversations second.2) !! EventTypes.Conversation = Some (S n) /\
  emitter cancelled.2 = emitter w ++ [listener1] /\
  subscriptions (conversations cancelled.2) !! EventTypes.Conversation = None.
Proof.
  intros Hwf n listener1 listener2 first second cancelled.
  subst n listener1 listener2 first second cancelled.
  rewrite !stream_world.
  destruct w as [[inbox kn subs] reg em nh cs rem inv unh con].
  cbn [fst snd emitter next_handle conversations client_inboxId invoked subscriptions
       with_subscriptions known codecRegistry calls remote unhandled console] in *.
  split; [reflexivity |]. split; [reflexivity |].
  split; [by rewrite <- app_assoc |].
  split; [by rewrite lookup_insert_eq |].
  assert (Hcancel :
    forall w2 : World Remote,
      subscriptions (conversations w2) !! EventTypes.Conversation = Some (S nh) ->
      emitter w2 = (em ++ [{| handle := nh; body := stream_listener callback1 |}])
                   ++ [{| handle := S nh; body := stream_listener callback2 |}] ->
      emitter (Conversations.cancelStream XMTP w2).2
      = em ++ [{| handle := nh; body := stream_listener callback1 |}] /\
      subscriptions (conversations (Conversations.cancelStream XMTP w2).2)
        !! EventTypes.Conversation = None).
  { intros [[inbox2 kn2 subs2] reg2 em2 nh2 cs2 rem2 inv2 unh2 con2].
    cbn [conversations subscriptions emitter]. intros Hsub ->.
    unfold Conversations.cancelStream, Conversations.cancel_subscription.
    run_method. rewrite Hsub. run_method. rewrite lookup_delete_eq.
    split; [| reflexivity].
    rewrite <- app_assoc. cbn [app]. rewrite filter_app.
    rewrite filter_handles_below by (intros l Hl; specialize (Hwf l Hl); lia).
    f_equal. rewrite filter_cons_True by (cbn; lia).
    rewrite filter_cons_False by (cbn; lia). reflexivity. }
  match goal with
  | |- emitter (Conversations.cancelStream XMTP ?w2).2 = _ /\ _ =>
      destruct (Hcancel w2) as [Hc1 Hc2];
      [cbn [conversations subscriptions with_subscriptions];
       by rewrite lookup_insert_eq | reflexivity |]
  end.
  split; [exact Hc1 | exact Hc2].
Qed.

(** *** Listing *)

(** [listConversations] returns what the native module lists and leaves the
    object and the listeners as they were: it has no statement besides the
    native call. *)
Lemma listConversations_writes_nothing w (q : ListQuery) :
  conversations (Conversations.listConversations XMTP q w).2 = conversations w /\
  emitter (Conversations.listConversations XMTP q w).2 = emitter w /\
  (Conversations.listConversations XMTP q w).1
  = (XMTPModule.listV3Conversations XMTP (client_inboxId (conversations w)) q (remote w)).1.
Proof.
  destruct w as [[inbox kn subs] reg em nh cs rem inv unh con].
  unfold Conversations.listConversations. run_method.
  destruct (XMTPModule.listV3Conversations XMTP inbox q rem) as [r rem'].
  repeat split; reflexivity.
Qed.


End ListenerFacts.

(** ** The theorems at concrete inputs *)

(** C1 at a run: [stream] and [streamAll] are started on a fresh object and
    a topic arrives on the category of [stream]: the listener of [stream]
    rejects, and its callback is not called. *)
Lemma first_delivery_throws_before_the_callback_witness :
  let w := Scenario.two_categories in
  let ev := Ev_Conversation "inbox-a" Scenario.conversation_t in
  run_listener {| handle := 0; body := stream_listener Sim.resolves |} ev w
  = (Throw this_known_is_undefined, w) /\
  invoked (emit ev w) = [] /\
  unhandled (emit ev w) = [(0, this_known_is_undefined)].
Proof.
  destruct (first_delivery_throws_before_the_callback Scenario.two_categories
              (Ev_Conversation "inbox-a" Scenario.conversation_t))
    as (Hl & Hinv & Hunh).
  - reflexivity.
  - reflexivity.
  - split; [apply Hl; reflexivity |]. split; [exact Hinv | exact Hunh].
Defined.

(** C4 at a run: [cancelStream] twice after one [stream], on a native side
    whose unsubscribe changes nothing. *)
Lemma cancel_twice_removes_once_unsubscribes_twice_witness :
  let started := Sim.exec (Conversations.stream Sim.module Sim.resolves) Scenario.fresh in
  let first := Conversations.cancelStream Sim.module started in
  let second := Conversations.cancelStream Sim.module first.2 in
  second.1 = Ok tt /\ emitter second.2 = emitter first.2 /\
  remote second.2 = remote first.2.
Proof.
  destruct (cancel_twice_removes_once_unsubscribes_twice Sim.module by_cancelStream
              (Sim.exec (Conversations.stream Sim.module Sim.resolves) Scenario.fresh))
    as (_ & Hok & _ & _ & Hem & _ & _ & _ & Hrem).
  split; [exact Hok |]. split; [exact Hem |]. apply Hrem. reflexivity.
Defined.

(** C8 at a run: an event for client [inbox-b] in the process of client
    [inbox-a]. *)
Lemma cross_client_isolation_witness :
  let w := Scenario.two_categories in
  let ev := Ev_Conversation "inbox-b" Scenario.conversation_t in
  run_listener {| handle := 0; body := stream_listener Sim.resolves |} ev w = (Ok tt, w) /\
  conversations (emit ev w) = conversations w.
Proof.
  destruct (cross_client_isolation Scenario.two_categories
              (Ev_Conversation "inbox-b" Scenario.conversation_t)) as (Hl & _ & Hc).
  split; [apply Hl | apply Hc]; discriminate.
Defined.

(** C5 at a run: [stream] started twice on a fresh object. *)
Lemma second_stream_adds_a_second_listener_witness :
  let second :=
    Conversations.stream Sim.module Sim.rejects_always
      (Conversations.stream Sim.module Sim.resolves Scenario.fresh).2 in
  let cancelled := Conversations.cancelStream Sim.module second.2 in
  emitter second.2
  = [{| handle := 0; body := stream_listener Sim.resolves |};
     {| handle := 1; body := stream_listener Sim.rejects_always |}] /\
  emitter cancelled.2 = [{| handle := 0; body := stream_listener Sim.resolves |}].
Proof.
  destruct (second_stream_adds_a_second_listener Sim.module Scenario.fresh
              Sim.resolves Sim.rejects_always)
    as (_ & _ & Hem & _ & Hcan & _).
  - intros l Hl. by apply elem_of_nil in Hl.
  - split; [exact Hem | exact Hcan].
Defined.

(** * Further properties of the modelled code *)

(** ** The native encoder *)

(** The encoded object has the five identity keys with the values of the
    group and the client, [version] is always ["GROUP"], and it has no key
    besides these five and the seven optional ones. *)
Theorem encodeToObj_keys (client : Android.Client) (group : Android.Group)
    (p : ConversationParamsWrapper.t) :
  let obj := GroupWrapper.encodeToObj client group p in
  obj !! "clientAddress" = Some (AnyString (Android.address client)) /\
  obj !! "id" = Some (AnyString (Android.id group)) /\
  obj !! "createdAt" = Some (AnyLong (Android.createdAt_time group)) /\
  obj !! "version" = Some (AnyString "GROUP") /\
  obj !! "topic" = Some (AnyString (Android.topic group)) /\
  forall k, present obj k = true -> k ∈ fixed_keys ++ optional_keys.
Proof.
  intros obj. subst obj.
  assert (Hshape :
    exists m last,
      GroupWrapper.encodeToObj client group p
      = match last with
        | Some v => GroupWrapper.put "lastMessage" v m
        | None => m
        end /\
      m = GroupWrapper.put_if (ConversationParamsWrapper.consentState p) "consentState"
            (AnyString (consentStateToString (Android.consentState group)))
            (GroupWrapper.put_if (ConversationParamsWrapper.description p) "description"
               (AnyString (Android.description group))
               (GroupWrapper.put_if (ConversationParamsWrapper.imageUrlSquare p)
                  "imageUrlSquare" (AnyString (Android.imageUrlSquare group))
                  (GroupWrapper.put_if (ConversationParamsWrapper.name p) "name"
                     (AnyString (Android.name group))
                     (GroupWrapper.put_if (ConversationParamsWrapper.addedByInboxId p)
                        "addedByInboxId" (AnyString (Android.addedByInboxId group))
                        (GroupWrapper.put_if (ConversationParamsWrapper.isActive p)
                           "isActive" (AnyBoolean (Android.isActive group))
                           (GroupWrapper.put "topic" (AnyString (Android.topic group))
                              (GroupWrapper.put "version" (AnyString "GROUP")
                                 (GroupWrapper.put "createdAt"
                                    (AnyLong (Android.createdAt_time group))
                                    (GroupWrapper.put "id" (AnyString (Android.id group))
                                       (GroupWrapper.put "clientAddress"
                                          (AnyString (Android.address client)) ∅))))))))))).
  { unfold GroupWrapper.encodeToObj.
    destruct (ConversationParamsWrapper.lastMessage p).
    - destruct (head (Android.messages_limit group 1)) as [m0|].
      + eexists _, (Some _). split; reflexivity.
      + eexists _, None. split; reflexivity.
    - eexists _, None. split; reflexivity. }
  destruct Hshape as (m & last & -> & ->).
  repeat split.
  1-5: destruct last; lookup_built_map; reflexivity.
  intros k Hk. unfold present in Hk. apply bool_decide_eq_true in Hk.
  unfold fixed_keys, optional_keys; cbn [map field_key app].
  repeat match goal with
         | |- k ∈ ?x :: _ =>
             destruct (decide (k = x)) as [-> | ?]; [left | right]
         end.
  exfalso. destruct Hk as [v Hv]. revert Hv.
  destruct last;
    repeat first
      [ rewrite lookup_put_if_ne by congruence
      | rewrite lookup_put_ne by congruence ];
    rewrite lookup_empty; discriminate.
Qed.

(** An optional field that is in the encoded object carries what the group's
    accessor returns: [lastMessage] is the first message that
    [messages(limit = 1)] lists, and [consentState] is a string from which
    the consent state is recovered, distinct states having distinct
    strings. *)
Theorem encodeToObj_values (client : Android.Client) (group : Android.Group)
    (p : ConversationParamsWrapper.t) (f : OptionalField) (v : Any) :
  GroupWrapper.encodeToObj client group p !! field_key f = Some v ->
  requested p f = true /\
  field_value group f = Some v /\
  (f = F_lastMessage -> exists m rest,
      Android.messages group = m :: rest /\ v = AnyEncodedMessage m) /\
  (forall s1 s2, consentStateToString s1 = consentStateToString s2 -> s1 = s2).
Proof.
  rewrite encodeToObj_lookup. intros Hv.
  destruct (requested p f) eqn:Hreq; [| discriminate].
  split; [reflexivity |]. split; [exact Hv |]. split.
  - intros ->. cbn [field_value] in Hv.
    destruct (Android.messages group) as [|m rest]; [discriminate |].
    cbn in Hv. injection Hv as <-. by exists m, rest.
  - intros [] []; cbn; intros H; first [reflexivity | discriminate H].
Qed.

(** The theorem above on a group with two messages, everything requested. *)
Lemma encodeToObj_values_witness :
  let group :=
    {| Android.id := "g1"; Android.createdAt_time := 1700000000000;
       Android.topic := "/xmtp/mls/1/g-g1/proto"; Android.isActive := true;
       Android.addedByInboxId := "inbox-b"; Android.name := "team";
       Android.imageUrlSquare := ""; Android.description := "";
       Android.consentState := Android.DENIED;
       Android.messages :=
         [{| Android.messageId := "m2"; Android.body := "latest" |};
          {| Android.messageId := "m1"; Android.body := "older" |}] |} in
  field_value group F_lastMessage
  = Some (AnyEncodedMessage {| Android.messageId := "m2"; Android.body := "latest" |}).
Proof.
  intros group.
  apply (encodeToObj_values EncoderExample.client group EncoderExample.everything
           F_lastMessage
           (AnyEncodedMessage {| Android.messageId := "m2"; Android.body := "latest" |})).
  vm_compute. reflexivity.
Defined.

(** From the options string to the encoded object: a field is in the object
    exactly when the group has it and the options string asks for it, where
    an empty string, or a string that does not mention the field, asks for
    the six metadata fields and not for [lastMessage]. *)
Theorem encodeToObj_with_options_string
    (parseString : string -> gmap string bool) (conversationParams : string)
    (client : Android.Client) (group : Android.Group) (f : OptionalField) :
  let p :=
    ConversationParamsWrapper.conversationParamsFromJson parseString conversationParams in
  present (GroupWrapper.encodeToObj client group p) (field_key f)
  = (if bool_decide (conversationParams = "") then default_requested f
     else default (default_requested f) (parseString conversationParams !! field_key f))
    && available group f.
Proof.
  intros p.
  assert (Hreq : requested p f
                 = if bool_decide (conversationParams = "") then default_requested f
                   else default (default_requested f)
                          (parseString conversationParams !! field_key f)).
  { subst p. unfold ConversationParamsWrapper.conversationParamsFromJson.
    case_bool_decide; destruct f; reflexivity. }
  rewrite <- Hreq. unfold present. rewrite encodeToObj_lookup.
  destruct (requested p f); cbn [andb].
  - destruct f; cbn [field_value available]; try reflexivity.
    destruct (Android.messages group); reflexivity.
  - reflexivity.
Qed.

(** ** Listing, streaming and cancelling *)

Section Further.

Context {Remote : Type}.
Variable XMTP : XMTPModule.t Remote.

Implicit Types (w : World Remote) (l : Listener) (ev : Event).

(** [listGroups] and [listAll] make the native call and then write the key
    of every returned item to [this.known]; the write throws at the first
    item.  So they return the list of the native module only when it is
    empty; when it has an element the result is a [TypeError] and the list
    does not reach the caller; a failure of the native call is the result
    as it is.  In every case the native call was made, and the object and
    the registered listeners are as before. *)
Theorem list_methods_throw_on_a_nonempty_result w (q : ListQuery) :
  let inboxId := client_inboxId (conversations w) in
  let groups := Conversations.listGroups XMTP q w in
  let all := Conversations.listAll XMTP w in
  groups.1
  = match (XMTPModule.listGroups XMTP inboxId q (remote w)).1 with
    | Ok [] => Ok []
    | Ok (_ :: _) => Throw this_known_is_undefined
    | Throw e => Throw e
    end /\
  all.1
  = match (XMTPModule.listAll XMTP inboxId (remote w)).1 with
    | Ok [] => Ok []
    | Ok (_ :: _) => Throw this_known_is_undefined
    | Throw e => Throw e
    end /\
  calls groups.2 = calls w ++ [call_listGroups inboxId q] /\
  calls all.2 = calls w ++ [call_listAll inboxId] /\
  conversations groups.2 = conversations w /\ conversations all.2 = conversations w /\
  emitter groups.2 = emitter w /\ emitter all.2 = emitter w.
Proof.
  intros inboxId groups all. subst inboxId groups all.
  destruct w as [c reg em nh cs rem inv unh con].
  unfold Conversations.listGroups, Conversations.listAll. run_method.
  destruct (XMTPModule.listGroups XMTP _ q rem) as [[[|g gs] | e1] rem1];
    destruct (XMTPModule.listAll XMTP _ rem) as [[[|c0 cs'] | e2] rem2];
    cbn [for_of]; run_method; repeat split; reflexivity.
Qed.

(** The listeners of [streamGroups] and [streamConversations] do not test
    [this.known], but they write to it before they call the callback: called
    with an event addressed to the client, whatever its version, the
    listener rejects with a [TypeError] at that write, the rejection is left
    unhandled, and the callback is not called. *)
Theorem unchecked_streams_throw_before_the_callback w (h : nat) (callback : Callback)
    (group : GroupParams) (conversation : ConversationContainerParams) :
  let inboxId := client_inboxId (conversations w) in
  let groups := {| handle := h; body := streamGroups_listener callback |} in
  let v3 := {| handle := h; body := streamConversations_listener callback |} in
  let ev_group := Ev_Group inboxId group in
  let ev_v3 := Ev_ConversationV3 inboxId conversation in
  run_listener groups ev_group w = (Throw this_known_is_undefined, w) /\
  run_listener v3 ev_v3 w = (Throw this_known_is_undefined, w) /\
  dispatch ev_group w groups = add_unhandled h this_known_is_undefined w /\
  dispatch ev_v3 w v3 = add_unhandled h this_known_is_undefined w /\
  invoked (dispatch ev_group w groups) = invoked w /\
  invoked (dispatch ev_v3 w v3) = invoked w.
Proof.
  intros inboxId groups v3 ev_group ev_v3. subst inboxId groups v3 ev_group ev_v3.
  destruct w as [[inbox kn subs] reg em nh cs rem inv unh con].
  cbn [conversations client_inboxId].
  unfold dispatch, run_listener; cbn [body handle].
  open_listener; split_listener; try congruence; repeat split; reflexivity.
Qed.

(** The cancel function that [streamAll] returns removes the listener of
    [streamAll] and then calls [cancelStream]: it also removes the listener
    registered by [stream], if there is one, and the one native call it makes
    is the unsubscribe of the conversations stream. *)
Theorem streamAll_cancel_also_cancels_stream w (subscription : nat) :
  let run := call_cancel XMTP (streamAll_cancel subscription) w in
  run.1 = Ok tt /\
  calls run.2
  = calls w ++ [call_unsubscribeFromConversations (client_inboxId (conversations w))] /\
  emitter run.2
  = match subscriptions (conversations w) !! EventTypes.Conversation with
    | Some registered =>
        filter (fun l => handle l <> registered)
          (filter (fun l => handle l <> subscription) (emitter w))
    | None => filter (fun l => handle l <> subscription) (emitter w)
    end /\
  subscriptions (conversations run.2) !! EventTypes.Conversation = None /\
  known (conversations run.2) = known (conversations w).
Proof.
  intros run. subst run.
  destruct w as [[inbox kn subs] reg em nh cs rem inv unh con].
  unfold call_cancel, Conversations.cancelStream, Conversations.cancel_subscription.
  run_method.
  destruct (subs !! EventTypes.Conversation) as [registered|] eqn:Hsub;
    run_method; rewrite ?lookup_delete_eq, ?Hsub; repeat split; reflexivity.
Qed.

(** [streamConversations] does not enter its subscription in the registry,
    so [cancelStreamConversations] finds nothing to remove and leaves the
    listener registered; the listener is removed by the function that
    [streamConversations] returned. *)
Theorem streamConversations_is_cancelled_by_its_function_only
    w (callback : Callback) :
  (forall l, l ∈ emitter w -> handle l < next_handle w) ->
  subscriptions (conversations w) !! EventTypes.ConversationV3 = None ->
  let listener :=
    {| handle := next_handle w; body := streamConversations_listener callback |} in
  let started := Conversations.streamConversations XMTP callback w in
  let by_method := Conversations.cancelStreamConversations XMTP started.2 in
  let by_function :=
    call_cancel XMTP (streamConversations_cancel (next_handle w)) started.2 in
  started.1 = Ok (streamConversations_cancel (next_handle w)) /\
  subscriptions (conversations started.2) = subscriptions (conversations w) /\
  emitter started.2 = emitter w ++ [listener] /\
  emitter by_method.2 = emitter w ++ [listener] /\
  emitter by_function.2 = emitter w.
Proof.
  intros Hwf Hsub listener started by_method by_function.
  subst listener started by_method by_function.
  destruct w as [[inbox kn subs] reg em nh cs rem inv unh con].
  cbn [emitter next_handle conversations subscriptions] in *.
  unfold call_cancel, Conversations.streamConversations,
    Conversations.cancelStreamConversations, Conversations.cancel_subscription.
  run_method. rewrite Hsub. run_method.
  repeat split.
  rewrite filter_app, filter_handles_below by exact Hwf.
  rewrite filter_cons_False by (cbn; lia). by rewrite app_nil_r.
Qed.

(** Starting a stream that is entered in the registry and then cancelling it
    gives back the registered listeners there were, with no entry left for
    the category; [known] is untouched on the way. *)
Theorem start_then_cancel_restores_listeners w (callback : Callback) :
  (forall l, l ∈ emitter w -> handle l < next_handle w) ->
  let restored (run : Result unit * World Remote) (key : EventTypes.t) :=
    run.1 = Ok tt /\ emitter run.2 = emitter w /\
    subscriptions (conversations run.2) !! key = None /\
    known (conversations run.2) = known (conversations w) in
  restored
    (Conversations.cancelStream XMTP (Conversations.stream XMTP callback w).2)
    EventTypes.Conversation /\
  restored
    (Conversations.cancelStreamGroups XMTP
       (Conversations.streamGroups XMTP callback w).2)
    EventTypes.Group /\
  restored
    (Conversations.cancelStreamAllMessages XMTP
       (Conversations.streamAllMessages XMTP callback None w).2)
    EventTypes.Message /\
  restored
    (Conversations.cancelStreamAllGroupMessages XMTP
       (Conversations.streamAllGroupMessages XMTP callback w).2)
    EventTypes.AllGroupMessage /\
  restored
    (Conversations.cancelStreamAllConversations XMTP
       (Conversations.streamAllConversationMessages XMTP callback w).2)
    EventTypes.AllConversationMessages.
Proof.
  intros Hwf restored. subst restored.
  destruct w as [[inbox kn subs] reg em nh cs rem inv unh con].
  cbn [emitter next_handle conversations subscriptions known] in *.
  assert (Hback :
    forall b, filter (fun l => handle l <> nh) (em ++ [{| handle := nh; body := b |}]) = em).
  { intros b. rewrite filter_app, filter_handles_below by exact Hwf.
    rewrite filter_cons_False by (cbn; lia). by rewrite app_nil_r. }
  unfold Conversations.stream, Conversations.streamGroups,
    Conversations.streamAllMessages, Conversations.streamAllGroupMessages,
    Conversations.streamAllConversationMessages,
    Conversations.cancelStream, Conversations.cancelStreamGroups,
    Conversations.cancelStreamAllMessages, Conversations.cancelStreamAllGroupMessages,
    Conversations.cancelStreamAllConversations, Conversations.cancel_subscription.
  run_method. rewrite !lookup_insert_eq. run_method.
  rewrite !lookup_delete_eq, !Hback. repeat split.
Qed.

(** ** Sending and the message stream of a group *)

(** Without a content type in the options, [send] and [prepareMessage] make
    one native call, with a string content wrapped as a text content; the
    result of the native call is the result; a failure is written once to
    the console, under the name of the method, and thrown again; a success
    writes nothing. *)
Theorem send_logs_and_rethrows w (this : Group.t) (content : SendPayload)
    (opts : option SendOptions) :
  opts ≫= contentType = None ->
  let inst := Group.clientInstallationId this in
  let id := Group.id this in
  let native := Group.to_native_content content in
  let sent := Group.send XMTP this content opts w in
  let prepared := Group.prepareMessage XMTP this content opts w in
  calls sent.2 = calls w ++ [call_sendMessage inst id native] /\
  calls prepared.2 = calls w ++ [call_prepareMessage inst id native] /\
  sent.1 = (XMTPModule.sendMessage XMTP inst id native (remote w)).1 /\
  prepared.1 = (XMTPModule.prepareMessage XMTP inst id native (remote w)).1 /\
  console sent.2
  = console w ++
    match sent.1 with
    | Ok _ => []
    | Throw e => ["ERROR in send() " +:+ error_message e]
    end /\
  console prepared.2
  = console w ++
    match prepared.1 with
    | Ok _ => []
    | Throw e => ["ERROR in prepareGroupMessage() " +:+ error_message e]
    end.
Proof.
  intros Hopts inst id native sent prepared.
  subst inst id native sent prepared.
  unfold Group.send, Group.prepareMessage. rewrite Hopts.
  destruct w as [c reg em nh cs rem inv unh con].
  unfold Group.to_native_content. run_method.
  destruct (XMTPModule.sendMessage XMTP _ _ _ rem) as [[mid1 | e1] rem1];
    destruct (XMTPModule.prepareMessage XMTP _ _ _ rem) as [[mid2 | e2] rem2];
    cbn; rewrite ?app_nil_r; repeat split; reflexivity.
Qed.

(** With a content type in the options, nothing is ever written to the
    console: neither the missing codec nor a failure of the native call is
    logged, unlike a failure on the path without a content type. *)
Theorem send_with_codec_never_logs w (this : Group.t) (content : SendPayload)
    (ct : ContentTypeId) :
  let opts := Some {| contentType := Some ct |} in
  console (Group.send XMTP this content opts w).2 = console w /\
  console (Group.prepareMessage XMTP this content opts w).2 = console w.
Proof.
  intros opts. subst opts.
  destruct w as [c reg em nh cs rem inv unh con].
  unfold Group.send, Group.prepareMessage; cbn [mbind option_bind contentType].
  unfold Group._sendWithJSCodec, Group._prepareWithJSCodec. run_method.
  destruct (reg !! codec_key ct) as [codec|].
  - destruct (XMTPModule.sendWithContentType XMTP _ _ _ codec rem) as [r1 rem1].
    destruct (XMTPModule.prepareMessageWithContentType XMTP _ _ _ codec rem)
      as [r2 rem2].
    split; reflexivity.
  - split; reflexivity.
Qed.

(** [Group.streamMessages] awaits the native subscription first: when it
    fails, the error is the result and no listener is registered; when it
    succeeds, one listener is registered for the group's installation and
    conversation ids.  The function it returns removes that listener and
    then makes the native unsubscribe call, whose result is its result. *)
Theorem streamMessages_registers_after_subscribing w (this : Group.t)
    (callback : Callback) :
  (forall l, l ∈ emitter w -> handle l < next_handle w) ->
  let inst := Group.clientInstallationId this in
  let id := Group.id this in
  let listener :=
    {| handle := next_handle w; body := streamMessages_listener inst id callback |} in
  let cancel := streamMessages_cancel (next_handle w) inst id in
  let started := Group.streamMessages XMTP this callback w in
  let stopped := call_cancel XMTP cancel started.2 in
  calls started.2 = calls w ++ [call_subscribeToMessages inst id] /\
  conversations started.2 = conversations w /\
  match (XMTPModule.subscribeToMessages XMTP inst id (remote w)).1 with
  | Throw e => started.1 = Throw e /\ emitter started.2 = emitter w
  | Ok _ =>
      started.1 = Ok cancel /\
      emitter started.2 = emitter w ++ [listener] /\
      emitter stopped.2 = emitter w /\
      calls stopped.2
      = calls w ++ [call_subscribeToMessages inst id; call_unsubscribeFromMessages inst id] /\
      stopped.1 = (XMTPModule.unsubscribeFromMessages XMTP inst id (remote started.2)).1
  end.
Proof.
  intros Hwf inst id listener cancel started stopped.
  subst inst id listener cancel started stopped.
  destruct w as [c reg em nh cs rem inv unh con].
  cbn [emitter next_handle] in Hwf.
  unfold call_cancel, Group.streamMessages. run_method.
  destruct (XMTPModule.subscribeToMessages XMTP _ _ rem) as [[[] | e] rem1];
    run_method; [| repeat split; reflexivity].
  destruct (XMTPModule.unsubscribeFromMessages XMTP _ _ rem1) as [r2 rem2].
  rewrite filter_app, filter_handles_below by exact Hwf.
  rewrite filter_cons_False by (cbn; lia).
  rewrite app_nil_r, <- app_assoc. repeat split; reflexivity.
Qed.

(** The listener of [Group.streamMessages] calls its callback exactly for
    the messages of its own installation and conversation: a message of
    another conversation of the same client changes nothing.  It never reads
    or writes [known], so the same message delivered twice is handed over
    twice. *)
Theorem streamMessages_filters_by_conversation w (h : nat)
    (inst id : string) (callback : Callback)
    (installationId conversationId : string) (message : DecodedMessage) :
  let listener := {| handle := h; body := streamMessages_listener inst id callback |} in
  let ev := Ev_ConversationMessage installationId message conversationId in
  let x := {| entity_class := MessageFromObject; entity_raw := RawMessage message |} in
  let once := dispatch ev w listener in
  let twice := dispatch ev once listener in
  conversations once = conversations w /\
  if bool_decide (installationId = inst /\ conversationId = id)
  then invoked once = invoked w ++ [(h, x)] /\
       invoked twice = invoked w ++ [(h, x); (h, x)]
  else once = w.
Proof.
  intros listener ev x once twice. subst listener ev x once twice.
  destruct w as [c reg em nh cs rem inv unh con].
  unfold dispatch, run_listener; cbn [body handle].
  case_bool_decide as Hmatch.
  - destruct Hmatch as [-> ->].
    open_listener; split_listener; try congruence;
      rewrite <- ?app_assoc; repeat split; reflexivity.
  - open_listener; split_listener; try (split; reflexivity).
    all: exfalso; apply Hmatch; split; congruence.
Qed.

(** Nothing keeps [Group.streamMessages] from being started twice on one
    group: when both native subscriptions succeed, both listeners are
    registered, a message of the group is handed to both callbacks, in the
    order of registration, and the function returned by the second call
    removes the second listener only. *)
Theorem streamMessages_twice_delivers_twice w (this : Group.t)
    (callback1 callback2 : Callback) (message : DecodedMessage) :
  (forall l, l ∈ emitter w -> handle l < next_handle w) ->
  (forall l, l ∈ emitter w ->
     listener_event (body l) <> EventTypes.ConversationMessage) ->
  (forall r,
     (XMTPModule.subscribeToMessages XMTP
        (Group.clientInstallationId this) (Group.id this) r).1 = Ok tt) ->
  let inst := Group.clientInstallationId this in
  let id := Group.id this in
  let n := next_handle w in
  let x := {| entity_class := MessageFromObject; entity_raw := RawMessage message |} in
  let listener1 := {| handle := n; body := streamMessages_listener inst id callback1 |} in
  let listener2 :=
    {| handle := S n; body := streamMessages_listener inst id callback2 |} in
  let first := Group.streamMessages XMTP this callback1 w in
  let second := Group.streamMessages XMTP this callback2 first.2 in
  let delivered := emit (Ev_ConversationMessage inst message id) second.2 in
  let stopped := call_cancel XMTP (streamMessages_cancel (S n) inst id) second.2 in
  second.1 = Ok (streamMessages_cancel (S n) inst id) /\
  emitter second.2 = emitter w ++ [listener1; listener2] /\
  invoked delivered = invoked w ++ [(n, x); (S n, x)] /\
  emitter stopped.2 = emitter w ++ [listener1].
Proof.
  intros Hwf Hfree Hsub inst id n x listener1 listener2 first second delivered stopped.
  assert (Hstart : forall (cb : Callback) (w0 : World Remote),
    exists rem1,
      Group.streamMessages XMTP this cb w0
      = (Ok (streamMessages_cancel (next_handle w0) inst id),
         {| conversations := conversations w0; codecRegistry := codecRegistry w0;
            emitter :=
              emitter w0 ++
              [{| handle := next_handle w0; body := streamMessages_listener inst id cb |}];
            next_handle := S (next_handle w0);
            calls := calls w0 ++ [call_subscribeToMessages inst id];
            remote := rem1;
            invoked := invoked w0; unhandled := unhandled w0; console := console w0 |})).
  { intros cb [c reg em nh cs rem inv unh con]. specialize (Hsub rem).
    unfold Group.streamMessages. run_method.
    subst inst id.
    destruct (XMTPModule.subscribeToMessages XMTP _ _ rem) as [[[] | e] rem1];
      [| discriminate Hsub].
    exists rem1. reflexivity. }
  subst first second delivered stopped.
  destruct (Hstart callback1 w) as (rem1 & ->). cbn [snd].
  match goal with
  | |- context [Group.streamMessages XMTP this callback2 ?w1] =>
      destruct (Hstart callback2 w1) as (rem2 & ->)
  end.
  clear Hstart.
  cbn [fst snd emitter next_handle conversations codecRegistry calls remote invoked
       unhandled console].
  fold n. fold listener1 listener2.
  split; [reflexivity |]. split; [by rewrite <- app_assoc |].
  destruct w as [c reg em nh cs rem inv unh con].
  cbn [emitter next_handle invoked] in *. subst n.
  split.
  - unfold emit. cbn [emitter]. rewrite <- app_assoc, List.filter_app.
    rewrite filter_listens_none
      by (intros l Hl; apply bool_decide_eq_false; cbn [event_type]; by apply Hfree).
    cbn [app List.filter]. unfold listens_to. subst listener1 listener2.
    cbn [body listener_event event_type].
    rewrite bool_decide_eq_true_2 by reflexivity.
    cbn [fold_left]. unfold dispatch, run_listener; cbn [body handle].
    open_listener; split_listener; try congruence;
      rewrite <- ?app_assoc; reflexivity.
  - unfold call_cancel. run_method.
    destruct (XMTPModule.unsubscribeFromMessages XMTP inst id rem2) as [r3 rem3].
    cbn [snd emitter]. rewrite <- app_assoc. cbn [app].
    rewrite filter_app, filter_handles_below
      by (intros l Hl; specialize (Hwf l Hl); lia).
    subst listener1 listener2.
    rewrite filter_cons_True by (cbn; lia).
    rewrite filter_cons_False by (cbn; lia). reflexivity.
Qed.

End Further.

(** ** The further properties at concrete inputs *)

Lemma encodeToObj_keys_witness :
  "lastMessage" ∈ fixed_keys ++ optional_keys.
Proof.
  destruct (encodeToObj_keys EncoderExample.client
              {| Android.id := "g1"; Android.createdAt_time := 1700000000000;
                 Android.topic := "/xmtp/mls/1/g-g1/proto"; Android.isActive := true;
                 Android.addedByInboxId := "inbox-b"; Android.name := "team";
                 Android.imageUrlSquare := ""; Android.description := "";
                 Android.consentState := Android.DENIED;
                 Android.messages :=
                   [{| Android.messageId := "m2"; Android.body := "latest" |}] |}
              EncoderExample.everything) as (_ & _ & _ & _ & _ & Hkeys).
  apply Hkeys. vm_compute. reflexivity.
Defined.

Lemma streamConversations_is_cancelled_by_its_function_only_witness :
  let started := Conversations.streamConversations Sim.module Sim.resolves Scenario.fresh in
  map handle (emitter (Conversations.cancelStreamConversations Sim.module started.2).2)
  = [0] /\
  emitter (call_cancel Sim.module (streamConversations_cancel 0) started.2).2 = [].
Proof.
  destruct (streamConversations_is_cancelled_by_its_function_only Sim.module
              Scenario.fresh Sim.resolves) as (_ & _ & _ & Hmethod & Hfunction).
  - intros l Hl. by apply elem_of_nil in Hl.
  - reflexivity.
  - split; [by rewrite Hmethod | exact Hfunction].
Defined.

Lemma start_then_cancel_restores_listeners_witness :
  emitter (Conversations.cancelStream Sim.module
             (Conversations.stream Sim.module Sim.resolves Scenario.fresh).2).2 = [].
Proof.
  destruct (start_then_cancel_restores_listeners Sim.module Scenario.fresh Sim.resolves)
    as ((_ & Hem & _) & _).
  - intros l Hl. by apply elem_of_nil in Hl.
  - exact Hem.
Defined.

Lemma send_logs_and_rethrows_witness :
  let sent := Group.send Sim.module Scenario.group (payload_string "hi") None Scenario.fresh in
  calls sent.2 = [call_sendMessage "install-a" "g1" (text_content "hi")] /\
  console sent.2 = [].
Proof.
  destruct (send_logs_and_rethrows Sim.module Scenario.fresh Scenario.group
              (payload_string "hi") None) as (Hcalls & _ & _ & _ & Hconsole & _).
  - reflexivity.
  - split; [exact Hcalls | exact Hconsole].
Defined.

Lemma streamMessages_registers_after_subscribing_witness :
  let started := Group.streamMessages Sim.module Scenario.group Sim.resolves Scenario.fresh in
  started.1 = Ok (streamMessages_cancel 0 "install-a" "g1") /\
  emitter (call_cancel Sim.module (streamMessages_cancel 0 "install-a" "g1") started.2).2
  = [].
Proof.
  destruct (streamMessages_registers_after_subscribing Sim.module Scenario.fresh
              Scenario.group Sim.resolves) as (_ & _ & Hcase).
  - intros l Hl. by apply elem_of_nil in Hl.
  - change (XMTPModule.subscribeToMessages Sim.module _ _ _).1
      with (Ok tt : Result unit) in Hcase.
    destruct Hcase as (Hok & _ & Hstopped & _).
    split; [exact Hok | exact Hstopped].
Defined.

Lemma streamMessages_twice_delivers_twice_witness :
  let second :=
    Group.streamMessages Sim.module Scenario.group Sim.resolves
      (Group.streamMessages Sim.module Scenario.group Sim.resolves Scenario.fresh).2 in
  map fst (invoked (emit (Ev_ConversationMessage "install-a" (Scenario.message "m1") "g1")
                      second.2))
  = [0; 1].
Proof.
  destruct (streamMessages_twice_delivers_twice Sim.module Scenario.fresh Scenario.group
              Sim.resolves Sim.resolves (Scenario.message "m1"))
    as (_ & _ & Hinv & _).
  - intros l Hl. by apply elem_of_nil in Hl.
  - intros l Hl. by apply elem_of_nil in Hl.
  - intros r. reflexivity.
  - intros second. subst second.
    change (Group.clientInstallationId Scenario.group) with "install-a" in Hinv.
    change (Group.id Scenario.group) with "g1" in Hinv.
    rewrite Hinv. reflexivity.
Defined.

(** ** Events and the registry of listeners *)

Section FurtherEvents.

Context {Remote : Type}.
Variable XMTP : XMTPModule.t Remote.

Implicit Types (w : World Remote) (l : Listener) (ev : Event).


End FurtherEvents.

